(** * Lifecycle-cost comparison of vacuum and pressure sewer systems

    A shallow embedding of [vendor_compare.py] (the cost model) and of the
    request handler of [vendors.py] (the HTTP surface), with the properties
    of the specification stated over it.

    Conventions of the embedding:
    - a Python number is a [num]: an [Int] carrying a [Z] or a [Float]
      carrying an exact rational.  Floating-point arithmetic is idealised
      as exact arithmetic on [Q]; rounding error, overflow and underflow
      of binary floats are out of scope, the 2-decimal [round] of the
      result fields is modelled;
    - the cost book is a dictionary of sections, each a dictionary of
      numbers; both are [gmap]s keyed by strings, and subscripting a
      missing key fails;
    - a raised exception is [None] in the [option] monad. *)

From stdpp Require Import gmap strings pretty.
From Stdlib Require Import Ascii ZArith QArith Qround Qabs Qpower Lia Lqa.

Local Open Scope Q_scope.

(** ** Python numbers *)

Inductive num : Type :=
  | Int (z : Z)
  | Float (q : Q).

(** The mathematical value of a number. *)
Definition val (x : num) : Q :=
  match x with
  | Int z => inject_Z z
  | Float q => q
  end.

(** Truth value of a number: zero (of either type) is false. *)
Definition truthy (x : num) : bool := negb (Qeq_bool (val x) 0).

(** [a or b] where [a] is an optional number: [None] and zero are falsy. *)
Definition py_or (a : option num) (b : num) : num :=
  match a with
  | Some x => if truthy x then x else b
  | None => b
  end.

(** [int(x)]: the identity on an int, truncation toward zero on a float. *)
Definition Qtrunc (q : Q) : Z := Z.quot (Qnum q) (Zpos (Qden q)).

Definition py_int (x : num) : Z :=
  match x with
  | Int z => z
  | Float q => Qtrunc q
  end.

(** [math.ceil(a / b)] for two ints, [/] being true division. *)
Definition ceil_div (a b : Z) : Z := Qceiling (inject_Z a / inject_Z b).

(** [round(x, 2)]: to the nearest multiple of 1/100, ties to even. *)
Definition round_half_even (q : Q) : Z :=
  let f := Qfloor q in
  match Qcompare (q - inject_Z f) (1 # 2) with
  | Lt => f
  | Gt => (f + 1)%Z
  | Eq => if Z.even f then f else (f + 1)%Z
  end.

Definition round2 (q : Q) : Q := round_half_even (q * 100) # 100.

(** [[x] * n]: a list repeated an int number of times (empty when the count
    is negative); a float count is a type error. *)
Definition list_times (x : Q) (n : num) : option (list Q) :=
  match n with
  | Int z => Some (replicate (Z.to_nat z) x)
  | Float _ => None
  end.

(** [range(1, n + 1)], again only for an int [n]. *)
Definition range1 (n : num) : option (list Z) :=
  match n with
  | Int z => Some (seqZ 1 z)
  | Float _ => None
  end.

(** [enumerate(l, start)]. *)
Fixpoint enumerate {A : Type} (start : Z) (l : list A) : list (Z * A) :=
  match l with
  | [] => []
  | x :: l' => (start, x) :: enumerate (start + 1) l'
  end.

(** ** The cost model ([vendor_compare.py]) *)

Module vendor_compare.

(** One term [c / ((1 + r) ** t)] of the discounted sum; dividing by zero
    raises. *)
Definition discounted (r : Q) (tc : Z * Q) : option Q :=
  let d := (1 + r) ^ tc.1 in
  if Qeq_bool d 0 then None else Some (tc.2 / d).

(** [sum] over the generator, left to right from 0. *)
Definition npv_step (r : Q) (acc : option Q) (tc : Z * Q) : option Q :=
  a ← acc; x ← discounted r tc; Some (a + x).

Definition npv (series : list Q) (r : Q) : option Q :=
  foldl (npv_step r) (Some 0) (enumerate 1 series).

Record Cluster : Type := mkCluster {
  num_lots : Z;
  est_main_lf : Q;
  est_laterals_lf : Q;
  analysis_years : option Z;
  discount_rate : option Q;
  energy_rate_per_kwh : option Q
}.

Record CostEstimate : Type := mkEstimate {
  system : string;
  capex : Q;
  annual_om_year1 : Q;
  npv_om : Q;
  npv_total : Q
}.

(** [_f(fin, k, d)]: [fin.get(k, d) if fin else d]. *)
Definition _f (fin : gmap string num) (k : string) (d : num) : num :=
  if decide (fin = ∅) then d else default d (fin !! k).

(** The three effective finance parameters, as both estimators compute
    them from the cluster and [costs.get("finance", {})]. *)
Definition finance_of (costs : gmap string (gmap string num)) : gmap string num :=
  default ∅ (costs !! "finance").

Definition resolve_ny (c : Cluster) (fin : gmap string num) : num :=
  py_or (Int <$> analysis_years c) (_f fin "analysis_years" (Int 30)).

Definition resolve_dr (c : Cluster) (fin : gmap string num) : num :=
  py_or (Float <$> discount_rate c) (_f fin "discount_rate" (Float (6 # 100))).

Definition resolve_ek (c : Cluster) (fin : gmap string num) : num :=
  py_or (Float <$> energy_rate_per_kwh c)
        (_f fin "energy_rate_per_kwh" (Float (14 # 100))).

(** Capital cost of the vacuum system (the local [capex]). *)
Definition vacuum_capex (c : Cluster) (v : gmap string num) : option Q :=
  main ← v !! "main_per_lf_shallow";
  lat ← v !! "lateral_per_lf";
  station ← v !! "station_per_400_lots_ls";
  pit ← v !! "valve_pit_each";
  Some (est_main_lf c * val main
        + est_laterals_lf c * val lat
        + inject_Z (ceil_div (Z.max 1 (num_lots c)) 400) * val station
        + inject_Z (ceil_div (num_lots c) 2) * val pit).

(** First-year operating cost, shared shape of [y1] and [annual]. *)
Definition annual_om (c : Cluster) (s : gmap string num) (ek : num) : option Q :=
  om ← s !! "annual_om_per_conn";
  kwh ← s !! "energy_kwh_per_conn_day";
  Some (inject_Z (num_lots c) * val om
        + inject_Z (num_lots c) * val kwh * 365 * val ek).

(** Lines 45-62 of [estimate_vacuum], once [v] and the effective finance
    parameters are known. *)
Definition vacuum_body (c : Cluster) (v : gmap string num) (ny dr ek : num)
  : option CostEstimate :=
  capex ← vacuum_capex c v;
  y1 ← annual_om c v ek;
  series ← list_times y1 ny;
  npv_om ← npv series (val dr);
  Some {| system := "Vacuum";
          capex := round2 capex;
          annual_om_year1 := round2 y1;
          npv_om := round2 npv_om;
          npv_total := round2 (capex + npv_om) |}.

Definition estimate_vacuum (c : Cluster) (costs : gmap string (gmap string num))
  : option CostEstimate :=
  v ← costs !! "vacuum";
  let fin := finance_of costs in
  let ny := resolve_ny c fin in
  let dr := resolve_dr c fin in
  let ek := resolve_ek c fin in
  vacuum_body c v ny dr ek.

(** Capital cost of the pressure system; the booster price is read only
    when the main is longer than 8000 ft. *)
Definition pressure_capex (c : Cluster) (p : gmap string num) : option Q :=
  main ← p !! "main_per_lf_shallow";
  lat ← p !! "lateral_per_lf";
  pump ← p !! "grinder_pump_package_each";
  booster ← (if Qlt_le_dec 8000 (est_main_lf c)
             then val <$> p !! "booster_ls" else Some 0);
  Some (est_main_lf c * val main
        + est_laterals_lf c * val lat
        + inject_Z (num_lots c) * val pump
        + booster).

(** The per-year operating series: replacement interval, replacement
    cost and the list comprehension over [range(1, ny + 1)]. *)
Definition operating_series (c : Cluster) (p : gmap string num) (annual : Q)
  (ny : num) : option (list Q) :=
  pry ← p !! "pump_replace_years";
  let rep_years := Z.max 1 (py_int pry) in
  prc ← p !! "pump_replace_cost_each";
  let rep_cost := inject_Z (num_lots c) * val prc in
  ys ← range1 ny;
  Some ((fun y => annual + (if (y mod rep_years =? 0)%Z then rep_cost else 0))
        <$> (ys : list Z)).

(** Lines 71-93 of [estimate_pressure]. *)
Definition pressure_body (c : Cluster) (p : gmap string num) (ny dr ek : num)
  : option CostEstimate :=
  capex ← pressure_capex c p;
  annual ← annual_om c p ek;
  series ← operating_series c p annual ny;
  npv_om ← npv series (val dr);
  Some {| system := "Pressure";
          capex := round2 capex;
          annual_om_year1 := round2 annual;
          npv_om := round2 npv_om;
          npv_total := round2 (capex + npv_om) |}.

Definition estimate_pressure (c : Cluster) (costs : gmap string (gmap string num))
  : option CostEstimate :=
  p ← costs !! "pressure";
  let fin := finance_of costs in
  let ny := resolve_ny c fin in
  let dr := resolve_dr c fin in
  let ek := resolve_ek c fin in
  pressure_body c p ny dr ek.

Record Comparison : Type := mkComparison {
  vacuum : CostEstimate;
  pressure : CostEstimate;
  preferred : string;
  npv_delta : Q
}.

(** [compare]; the cost book that [load_costs()] reads from the
    configuration file is passed in. *)
Definition compare (costs : gmap string (gmap string num)) (cluster : Cluster)
  : option Comparison :=
  vac ← estimate_vacuum cluster costs;
  pre ← estimate_pressure cluster costs;
  let pref := match Qcompare (npv_total vac) (npv_total pre) with
              | Lt => "Vacuum"%string
              | _ => "Pressure"%string
              end in
  Some {| vacuum := vac;
          pressure := pre;
          preferred := pref;
          npv_delta := round2 (Qabs (npv_total vac - npv_total pre)) |}.

End vendor_compare.

(** ** The HTTP surface ([vendors.py]) *)

(** A string is the UTF-8 text of a Python [str].  [lower] is [str.lower]
    as far as a comparison with an ASCII word can tell: the ASCII capitals
    are lowered; U+212A KELVIN SIGN (bytes E2 84 AA), the one character
    beyond ASCII whose lower case is an ASCII text, becomes k; every other
    character is kept as it is, where [str.lower] gives a text that is not
    ASCII either. *)
Definition lower_ascii (a : ascii) : ascii :=
  let n := nat_of_ascii a in
  if (65 <=? n)%nat && (n <=? 90)%nat then ascii_of_nat (n + 32) else a.

Definition kelvin_sign (a b c : ascii) : bool :=
  (nat_of_ascii a =? 226)%nat && (nat_of_ascii b =? 132)%nat
  && (nat_of_ascii c =? 170)%nat.

Fixpoint lower (s : string) : string :=
  match s with
  | EmptyString => EmptyString
  | String a s1 =>
      match s1 with
      | String b (String c s3) =>
          if kelvin_sign a b c then String "k" (lower s3)
          else String (lower_ascii a) (lower s1)
      | _ => String (lower_ascii a) (lower s1)
      end
  end.

(** [s or d] for an optional string: [None] and the empty string are falsy. *)
Definition str_or (s : option string) (d : string) : string :=
  match s with
  | Some (String a s') => String a s'
  | _ => d
  end.

Definition dquote : string := String (ascii_of_nat 34) EmptyString.
Definition nl : string := String (ascii_of_nat 10) EmptyString.
Definition crlf : string := String (ascii_of_nat 13) nl.

(** [f"{x:,.2f}"]: sign, integer part in groups of three, two decimals. *)
Fixpoint group3 (rev_digits : list ascii) (k : nat) : list ascii :=
  match rev_digits with
  | [] => []
  | d :: ds =>
      if (k =? 3)%nat then ","%char :: d :: group3 ds 1
      else d :: group3 ds (S k)
  end.

Definition thousands (n : N) : string :=
  String.string_of_list_ascii
    (rev (group3 (rev (String.list_ascii_of_string (pretty n))) 0)).

Definition two_digits (n : N) : string :=
  ((if (n <? 10)%N then "0" else EmptyString) +:+ pretty n)%string.

Definition fmt_money (x : Q) : string :=
  let cents := Z.to_N (Z.abs (round_half_even (x * 100))) in
  ((if Qlt_le_dec x 0 then "-" else EmptyString)
   +:+ thousands (cents / 100) +:+ "." +:+ two_digits (cents mod 100))%string.

Module vendors.

(** A JSON body member: left out, sent as [null], or sent with a value. *)
Inductive field (A : Type) : Type :=
  | Omitted
  | Null
  | Given (a : A).
Arguments Omitted {A}.
Arguments Null {A}.
Arguments Given {A} a.

(** What a member declared [Optional[T] = d] validates to. *)
Definition optional {A : Type} (d : A) (f : field A) : option A :=
  match f with
  | Omitted => Some d
  | Null => None
  | Given a => Some a
  end.

(** The request models; the required members are taken as present and of
    the right type, the [Field] bounds are checked by [validate_cluster]. *)
Record ClusterBody : Type := mkClusterBody {
  body_num_lots : Z;
  body_est_main_lf : Q;
  body_est_laterals_lf : Q;
  body_analysis_years : field Z;
  body_discount_rate : field Q;
  body_energy_rate_per_kwh : field Q
}.

Record Cluster : Type := mkCluster {
  num_lots : Z;
  est_main_lf : Q;
  est_laterals_lf : Q;
  analysis_years : option Z;
  discount_rate : option Q;
  energy_rate_per_kwh : option Q
}.

Definition validate_cluster (b : ClusterBody) : option Cluster :=
  if (0 <? body_num_lots b)%Z
     && Qle_bool 0 (body_est_main_lf b)
     && Qle_bool 0 (body_est_laterals_lf b)
  then Some {| num_lots := body_num_lots b;
               est_main_lf := body_est_main_lf b;
               est_laterals_lf := body_est_laterals_lf b;
               analysis_years := optional 30%Z (body_analysis_years b);
               discount_rate := optional (6 # 100) (body_discount_rate b);
               energy_rate_per_kwh :=
                 optional (14 # 100) (body_energy_rate_per_kwh b) |}
  else None.

Record CompareBody : Type := mkCompareBody {
  body_cluster : ClusterBody;
  body_fmt : field string;
  body_filename : field string
}.

Record CompareReq : Type := mkCompareReq {
  cluster : Cluster;
  fmt : option string;
  filename : option string
}.

Definition validate_req (b : CompareBody) : option CompareReq :=
  c ← validate_cluster (body_cluster b);
  Some {| cluster := c;
          fmt := optional "json"%string (body_fmt b);
          filename := match body_filename b with
                      | Given f => Some f
                      | _ => None
                      end |}.

(** [req.cluster.model_dump()], then made into the dataclass by [compare]. *)
Definition model_dump (c : Cluster) : vendor_compare.Cluster :=
  {| vendor_compare.num_lots := num_lots c;
     vendor_compare.est_main_lf := est_main_lf c;
     vendor_compare.est_laterals_lf := est_laterals_lf c;
     vendor_compare.analysis_years := analysis_years c;
     vendor_compare.discount_rate := discount_rate c;
     vendor_compare.energy_rate_per_kwh := energy_rate_per_kwh c |}.

Import vendor_compare.

Definition headers : list string :=
  [ "System"; "CapEx ($)"; "Year1 O&M ($/yr)"; "NPV O&M (30y) ($)";
    "NPV Total (30y) ($)" ]%string.

Definition row_of (name : string) (e : CostEstimate) : list (string * string) :=
  zip headers
      [ name; fmt_money (capex e); fmt_money (annual_om_year1 e);
        fmt_money (npv_om e); fmt_money (npv_total e) ].

Definition _as_rows (res : Comparison) : list (list (string * string)) :=
  [ row_of "Vacuum" (vacuum res); row_of "Pressure" (pressure res) ].

(** [r[h]]; every row carries every header. *)
Definition cell (r : list (string * string)) (h : string) : string :=
  default EmptyString (snd <$> find (fun kv => String.eqb kv.1 h) r).

Definition md_line (cells : list string) : string :=
  ("| " +:+ String.concat " | " cells +:+ " |" +:+ nl)%string.

Definition _to_markdown (res : Comparison) : string :=
  let rows := _as_rows res in
  (md_line headers
   +:+ md_line (replicate (length headers) "---")
   +:+ String.concat EmptyString (map (fun r => md_line (map (cell r) headers)) rows)
   +:+ nl +:+ "**Preferred:** " +:+ preferred res
   +:+ " &nbsp;&nbsp; **NPV Δ:** $" +:+ fmt_money (npv_delta res) +:+ nl)%string.

(** [html.escape]. *)
Fixpoint esc (s : string) : string :=
  match s with
  | EmptyString => EmptyString
  | String a s' =>
      let n := nat_of_ascii a in
      ((if (n =? 38)%nat then "&amp;"
        else if (n =? 60)%nat then "&lt;"
        else if (n =? 62)%nat then "&gt;"
        else if (n =? 34)%nat then "&quot;"
        else if (n =? 39)%nat then "&#x27;"
        else String a EmptyString) +:+ esc s')%string
  end.

Definition style : string :=
  (nl +:+ "    <style>" +:+ nl
   +:+ "    table {border-collapse: collapse; font-family: Arial, sans-serif; font-size: 14px;}" +:+ nl
   +:+ "    th, td {border: 1px solid #ccc; padding: 8px 10px;}" +:+ nl
   +:+ "    th {background: #f3f3f3; text-align: left;}" +:+ nl
   +:+ "    </style>" +:+ nl +:+ "    ")%string.

Definition _to_html (res : Comparison) : string :=
  let rows := _as_rows res in
  let ths :=
    String.concat EmptyString
      (map (fun h => "<th>" +:+ esc h +:+ "</th>")%string headers) in
  let trs :=
    String.concat EmptyString
      (map (fun r =>
              "<tr>"
              +:+ String.concat EmptyString
                    (map (fun h => "<td>" +:+ esc (cell r h) +:+ "</td>") headers)
              +:+ "</tr>")%string rows) in
  let note :=
    ("<p><strong>Preferred:</strong> " +:+ esc (preferred res)
     +:+ " &nbsp;&nbsp; <strong>NPV Δ:</strong> $" +:+ fmt_money (npv_delta res)
     +:+ "</p>")%string in
  ("<!doctype html><html><head><meta charset='utf-8'>" +:+ style
   +:+ "</head><body><table><thead><tr>" +:+ ths
   +:+ "</tr></thead><tbody>" +:+ trs +:+ "</tbody></table>" +:+ note
   +:+ "</body></html>")%string.

(** A [csv.DictWriter] line: minimal quoting, quotes doubled, CRLF. *)
Fixpoint double_quotes (s : string) : string :=
  match s with
  | EmptyString => EmptyString
  | String a s' =>
      ((if (nat_of_ascii a =? 34)%nat then dquote else EmptyString)
       +:+ String a (double_quotes s'))%string
  end.

Definition needs_quoting (s : string) : bool :=
  existsb (fun a => let n := nat_of_ascii a in
                    (n =? 44)%nat || (n =? 34)%nat || (n =? 13)%nat || (n =? 10)%nat)
          (String.list_ascii_of_string s).

Definition csv_field (s : string) : string :=
  if needs_quoting s then (dquote +:+ double_quotes s +:+ dquote)%string else s.

Definition csv_line (cells : list string) : string :=
  (String.concat "," (map csv_field cells) +:+ crlf)%string.

Definition _to_csv_bytes (res : Comparison) : string :=
  let rows := _as_rows res in
  (csv_line headers
   +:+ String.concat EmptyString (map (fun r => csv_line (map (cell r) headers)) rows)
   +:+ nl +:+ "Preferred," +:+ preferred res +:+ nl
   +:+ "NPV Delta (USD)," +:+ fmt_money (npv_delta res) +:+ nl)%string.

(** What the handler returns: the comparison itself, a rendered
    [Response], or the error dictionary. *)
Inductive response : Type :=
  | ReturnResult (res : Comparison)
  | ReturnResponse (content media_type : string) (hdrs : list (string * string))
  | ReturnError (error : string).

(** A header is sent as latin-1: a text encodes when none of its characters
    lies beyond U+00FF, that is when no byte of its UTF-8 form is C4 or
    above. *)
Definition latin1 (s : string) : bool :=
  forallb (fun a => (nat_of_ascii a <? 196)%nat) (String.list_ascii_of_string s).

(** The constructor [Response(content, media_type=..., headers=...)], which
    encodes every header and raises on one that is not latin-1. *)
Definition Response (content media_type : string)
  (hdrs : list (string * string)) : option response :=
  if forallb (fun kv => latin1 kv.1 && latin1 kv.2) hdrs
  then Some (ReturnResponse content media_type hdrs)
  else None.

Definition attachment (name : string) : list (string * string) :=
  [ ("Content-Disposition",
     "attachment; filename=" +:+ dquote +:+ name +:+ dquote)%string ].

(** [str(req.fmt)] inside the f-string. *)
Definition show_fmt (f : option string) : string :=
  default "None"%string f.

Definition vendors_compare (costs : gmap string (gmap string num)) (req : CompareReq)
  : option response :=
  res ← compare costs (model_dump (cluster req));
  let fmt' := lower (str_or (fmt req) "json") in
  if decide (fmt' = "json"%string) then Some (ReturnResult res)
  else if decide (fmt' = "markdown"%string) then
    Response (_to_markdown res) "text/markdown" []
  else if decide (fmt' = "html"%string) then
    Response (_to_html res) "text/html"
      (attachment (str_or (filename req) "vendor_compare.html"))
  else if decide (fmt' = "csv"%string) then
    Response (_to_csv_bytes res) "text/csv"
      (attachment (str_or (filename req) "vendor_compare.csv"))
  else
    Some (ReturnError ("Unknown format '" +:+ show_fmt (fmt req)
                       +:+ "'. Use json|markdown|html|csv")%string).

(** The route: a body that fails validation is rejected before the handler
    runs (422), an exception in the handler is a server error (500), a
    returned value is sent with the default status (200). *)
Inductive outcome : Type :=
  | Rejected
  | Raised
  | Returned (r : response).

Definition post_vendors_compare (costs : gmap string (gmap string num))
  (body : CompareBody) : outcome :=
  match validate_req body with
  | None => Rejected
  | Some req =>
      match vendors_compare costs req with
      | None => Raised
      | Some r => Returned r
      end
  end.

Definition status_code (o : outcome) : Z :=
  match o with
  | Rejected => 422
  | Raised => 500
  | Returned _ => 200
  end%Z.

End vendors.

(** ** Notions of the specification *)

Module spec.
Import vendor_compare.

Definition Qlt_bool (a b : Q) : bool := negb (Qle_bool b a).

Definition is_int (x : num) : bool :=
  match x with
  | Int _ => true
  | Float _ => false
  end.

(** Every key the cost formulas read is present in its section. *)
Definition vacuum_keys : list string :=
  [ "main_per_lf_shallow"; "lateral_per_lf"; "station_per_400_lots_ls";
    "valve_pit_each"; "annual_om_per_conn"; "energy_kwh_per_conn_day" ]%string.

Definition pressure_keys : list string :=
  [ "main_per_lf_shallow"; "lateral_per_lf"; "grinder_pump_package_each";
    "booster_ls"; "annual_om_per_conn"; "energy_kwh_per_conn_day";
    "pump_replace_years"; "pump_replace_cost_each" ]%string.

Definition has_keys (s : gmap string num) (ks : list string) : bool :=
  forallb (fun k => match s !! k with Some _ => true | None => false end) ks.

Definition complete_book (costs : gmap string (gmap string num)) : bool :=
  match costs !! "vacuum", costs !! "pressure" with
  | Some v, Some p => has_keys v vacuum_keys && has_keys p pressure_keys
  | _, _ => false
  end.

(** A valid cluster: a positive number of lots, non-negative lengths, an
    integer horizon and a discount rate strictly between 0 and 1, the
    last two as they are in effect for the given cost book. *)
Definition valid_cluster (c : Cluster) (costs : gmap string (gmap string num))
  : bool :=
  let fin := finance_of costs in
  (0 <? num_lots c)%Z
  && Qle_bool 0 (est_main_lf c)
  && Qle_bool 0 (est_laterals_lf c)
  && is_int (resolve_ny c fin)
  && Qlt_bool 0 (val (resolve_dr c fin))
  && Qlt_bool (val (resolve_dr c fin)) 1.

(** Every unit cost of a section is non-negative. *)
Definition nonneg_section (s : gmap string num) : bool :=
  forallb (fun kv => Qle_bool 0 (val kv.2)) (map_to_list s).

Definition nonneg_book (costs : gmap string (gmap string num)) : bool :=
  from_option nonneg_section true (costs !! "vacuum")
  && from_option nonneg_section true (costs !! "pressure").

(** Two clusters that agree on every field but [num_lots]. *)
Definition same_but_lots (c1 c2 : Cluster) : Prop :=
  est_main_lf c1 = est_main_lf c2
  ∧ est_laterals_lf c1 = est_laterals_lf c2
  ∧ analysis_years c1 = analysis_years c2
  ∧ discount_rate c1 = discount_rate c2
  ∧ energy_rate_per_kwh c1 = energy_rate_per_kwh c2.

(** The value stored for [k] in the finance section, if any. *)
Definition in_finance (costs : gmap string (gmap string num)) (k : string)
  : option num :=
  fin ← costs !! "finance"; fin !! k.

(** The fallback in the words of the specification: the value on the
    cluster if present, otherwise the one in finance if present, otherwise
    the default. *)
Definition fallback_if_present (on_cluster : option num)
  (costs : gmap string (gmap string num)) (k : string) (d : num) : num :=
  match on_cluster with
  | Some x => x
  | None => default d (in_finance costs k)
  end.

(** The same chain with the first level taken only when the cluster value
    is present and not zero. *)
Definition fallback_if_nonzero (on_cluster : option num)
  (costs : gmap string (gmap string num)) (k : string) (d : num) : num :=
  match on_cluster with
  | Some x => if truthy x then x else default d (in_finance costs k)
  | None => default d (in_finance costs k)
  end.

(** Integer form of the two equipment counts of the vacuum system. *)
Definition stations (lots : Z) : Z := ((Z.max 1 lots + 399) / 400)%Z.
Definition valve_pits (lots : Z) : Z := ((lots + 1) / 2)%Z.

(** The formats the route renders, and the key by which it picks one: the
    lowercased [fmt], an absent or null [fmt] standing for "json". *)
Definition supported_formats : list string :=
  [ "json"; "markdown"; "html"; "csv" ]%string.

Definition fmt_key (f : vendors.field string) : string :=
  lower (match f with
         | vendors.Given s => s
         | _ => "json"%string
         end).

End spec.

(** ** Inputs on which the statements below are run *)

Module examples.
Import vendor_compare.

Definition vacuum_section : gmap string num :=
  list_to_map
    [ ("main_per_lf_shallow", Int 50); ("lateral_per_lf", Int 30);
      ("station_per_400_lots_ls", Int 150000); ("valve_pit_each", Int 2000);
      ("annual_om_per_conn", Int 120);
      ("energy_kwh_per_conn_day", Float (1 # 2)) ]%string.

Definition pressure_section : gmap string num :=
  list_to_map
    [ ("main_per_lf_shallow", Int 40); ("lateral_per_lf", Int 25);
      ("grinder_pump_package_each", Int 4500); ("booster_ls", Int 60000);
      ("annual_om_per_conn", Int 90);
      ("energy_kwh_per_conn_day", Float (8 # 10));
      ("pump_replace_years", Int 5); ("pump_replace_cost_each", Int 1500) ]%string.

Definition finance_section : gmap string num :=
  list_to_map
    [ ("analysis_years", Int 30); ("discount_rate", Float (6 # 100));
      ("energy_rate_per_kwh", Float (14 # 100)) ]%string.

Definition book : gmap string (gmap string num) :=
  list_to_map
    [ ("vacuum", vacuum_section); ("pressure", pressure_section);
      ("finance", finance_section) ]%string.

(** 100 lots, 5000 ft of main, 2000 ft of laterals, a 10-year horizon. *)
Definition cluster10 : Cluster :=
  {| num_lots := 100; est_main_lf := 5000; est_laterals_lf := 2000;
     analysis_years := Some 10%Z; discount_rate := None;
     energy_rate_per_kwh := None |}.

(** The same cluster with a zero energy rate given explicitly. *)
Definition cluster_free_energy : Cluster :=
  {| num_lots := 100; est_main_lf := 5000; est_laterals_lf := 2000;
     analysis_years := Some 10%Z; discount_rate := None;
     energy_rate_per_kwh := Some 0 |}.

(** Twice as many lots, everything else as in [cluster10]. *)
Definition cluster10_200 : Cluster :=
  {| num_lots := 200; est_main_lf := 5000; est_laterals_lf := 2000;
     analysis_years := Some 10%Z; discount_rate := None;
     energy_rate_per_kwh := None |}.

(** A cost book in which everything is free, so that the two totals tie. *)
Definition book_free : gmap string (gmap string num) :=
  list_to_map
    [ ("vacuum", (fun _ => Int 0) <$> vacuum_section);
      ("pressure", <["pump_replace_years"%string := Int 5]>
                     ((fun _ => Int 0) <$> pressure_section)) ]%string.

(** A one-year horizon, and a cost book whose pumps are replaced yearly. *)
Definition cluster1 : Cluster :=
  {| num_lots := 100; est_main_lf := 5000; est_laterals_lf := 2000;
     analysis_years := Some 1%Z; discount_rate := Some (6 # 100);
     energy_rate_per_kwh := None |}.

Definition book_yearly_pumps : gmap string (gmap string num) :=
  <["pressure"%string :=
      <["pump_replace_years"%string := Int 1]> pressure_section]> book.

(** Request bodies for [cluster10]: every optional member left out, a
    discount rate of -1 with an unknown format, a null discount rate. *)
Definition body_cluster10 : vendors.ClusterBody :=
  {| vendors.body_num_lots := 100;
     vendors.body_est_main_lf := 5000;
     vendors.body_est_laterals_lf := 2000;
     vendors.body_analysis_years := vendors.Given 10%Z;
     vendors.body_discount_rate := vendors.Omitted;
     vendors.body_energy_rate_per_kwh := vendors.Omitted |}.

Definition body_defaults : vendors.CompareBody :=
  {| vendors.body_cluster :=
       {| vendors.body_num_lots := 100;
          vendors.body_est_main_lf := 5000;
          vendors.body_est_laterals_lf := 2000;
          vendors.body_analysis_years := vendors.Omitted;
          vendors.body_discount_rate := vendors.Omitted;
          vendors.body_energy_rate_per_kwh := vendors.Omitted |};
     vendors.body_fmt := vendors.Omitted;
     vendors.body_filename := vendors.Omitted |}.

Definition body_xml_rate_minus_one : vendors.CompareBody :=
  {| vendors.body_cluster :=
       {| vendors.body_num_lots := 100;
          vendors.body_est_main_lf := 5000;
          vendors.body_est_laterals_lf := 2000;
          vendors.body_analysis_years := vendors.Omitted;
          vendors.body_discount_rate := vendors.Given (-1);
          vendors.body_energy_rate_per_kwh := vendors.Omitted |};
     vendors.body_fmt := vendors.Given "xml"%string;
     vendors.body_filename := vendors.Omitted |}.

Definition body_null_rate : vendors.CompareBody :=
  {| vendors.body_cluster :=
       {| vendors.body_num_lots := 100;
          vendors.body_est_main_lf := 5000;
          vendors.body_est_laterals_lf := 2000;
          vendors.body_analysis_years := vendors.Omitted;
          vendors.body_discount_rate := vendors.Null;
          vendors.body_energy_rate_per_kwh := vendors.Omitted |};
     vendors.body_fmt := vendors.Omitted;
     vendors.body_filename := vendors.Omitted |}.

(** The cost book with another discount rate in its finance section. *)
Definition book_rate_3 : gmap string (gmap string num) :=
  <["finance"%string :=
      <["discount_rate"%string := Float (3 # 100)]> finance_section]> book.

End examples.

(** ** Further notions and inputs for the behaviour of the code *)

Module behaviour.
Import vendor_compare.

(** The discounted sum as a recursion over the years, year [t] first. *)
Fixpoint present_value (r : Q) (t : Z) (series : list Q) : Q :=
  match series with
  | [] => 0
  | c :: rest => c / (1 + r) ^ t + present_value r (t + 1) rest
  end.

(** The plain sum of a series. *)
Definition total (series : list Q) : Q := foldr Qplus 0 series.

(** The keys of the pressure section that are read for every cluster. *)
Definition pressure_keys_always : list string :=
  [ "main_per_lf_shallow"; "lateral_per_lf"; "grinder_pump_package_each";
    "annual_om_per_conn"; "energy_kwh_per_conn_day";
    "pump_replace_years"; "pump_replace_cost_each" ]%string.

(** The character with code [n] occurs in [s]. *)
Definition occurs (n : nat) (s : string) : bool :=
  existsb (fun a => (nat_of_ascii a =? n)%nat) (String.list_ascii_of_string s).

(** A horizon of -2 years and a discount rate of -1. *)
Definition cluster_no_years : Cluster :=
  {| num_lots := 100; est_main_lf := 5000; est_laterals_lf := 2000;
     analysis_years := Some (-2)%Z; discount_rate := Some (-1);
     energy_rate_per_kwh := None |}.

(** A main of exactly 8000 ft, and one of 8001 ft. *)
Definition cluster_main_8000 : Cluster :=
  {| num_lots := 100; est_main_lf := 8000; est_laterals_lf := 2000;
     analysis_years := Some 10%Z; discount_rate := None;
     energy_rate_per_kwh := None |}.

Definition cluster_main_8001 : Cluster :=
  {| num_lots := 100; est_main_lf := 8001; est_laterals_lf := 2000;
     analysis_years := Some 10%Z; discount_rate := None;
     energy_rate_per_kwh := None |}.

(** The cost book without a booster price. *)
Definition book_no_booster : gmap string (gmap string num) :=
  <["pressure"%string := delete "booster_ls"%string examples.pressure_section]>
    examples.book.

End behaviour.

(** * Properties *)

(** ** Rounding to two decimals *)

Section rounding.

#[local] Instance round_half_even_comp : Proper (Qeq ==> eq) round_half_even.
Proof.
  intros q q' Hq. unfold round_half_even.
  rewrite (Qfloor_comp _ _ Hq).
  assert (Hc : Qcompare (q - inject_Z (Qfloor q')) (1 # 2)
               = Qcompare (q' - inject_Z (Qfloor q')) (1 # 2))
    by (apply Qcompare_comp; [rewrite Hq|]; reflexivity).
  by rewrite Hc.
Qed.

Lemma round_half_even_floor (q : Q) :
  (Qfloor q <= round_half_even q <= Qfloor q + 1)%Z.
Proof.
  unfold round_half_even.
  destruct (Qcompare _ _); [destruct (Z.even _)| |]; lia.
Qed.

Lemma round_half_even_err (q : Q) :
  - (1 # 2) <= inject_Z (round_half_even q) - q <= 1 # 2.
Proof.
  pose proof (Qfloor_le q) as Hlo. pose proof (Qlt_floor q) as Hhi.
  rewrite inject_Z_plus in Hhi. change (inject_Z 1) with 1 in Hhi.
  unfold round_half_even.
  destruct (Qcompare_spec (q - inject_Z (Qfloor q)) (1 # 2)) as [He|Hl|Hg];
    [destruct (Z.even _)| |];
    rewrite ?inject_Z_plus; change (inject_Z 1) with 1; split; lra.
Qed.

Lemma round_half_even_mono (q q' : Q) :
  q <= q' → (round_half_even q <= round_half_even q')%Z.
Proof.
  intros Hle. pose proof (Qfloor_resp_le _ _ Hle) as Hf.
  destruct (decide (Qfloor q = Qfloor q')) as [Heq|Hne].
  - unfold round_half_even. rewrite <- Heq.
    destruct (Qcompare_spec (q - inject_Z (Qfloor q)) (1 # 2));
      destruct (Qcompare_spec (q' - inject_Z (Qfloor q)) (1 # 2));
      try destruct (Z.even _); try lia; lra.
  - pose proof (round_half_even_floor q). pose proof (round_half_even_floor q').
    lia.
Qed.

Lemma round2_scaled (q : Q) :
  round2 q == inject_Z (round_half_even (q * 100)) * (1 # 100).
Proof. unfold round2, Qeq. simpl. lia. Qed.

#[local] Instance round2_comp : Proper (Qeq ==> Qeq) round2.
Proof. intros q q' Hq. unfold round2. by rewrite Hq. Qed.

Lemma round2_err (q : Q) : - (1 # 200) <= round2 q - q <= 1 # 200.
Proof.
  rewrite round2_scaled. pose proof (round_half_even_err (q * 100)). lra.
Qed.

Lemma round2_mono (q q' : Q) : q <= q' → round2 q <= round2 q'.
Proof.
  intros Hle. rewrite !round2_scaled.
  assert (H : (round_half_even (q * 100) <= round_half_even (q' * 100))%Z)
    by (apply round_half_even_mono; lra).
  rewrite Zle_Qle in H. lra.
Qed.

(** The sum of two rounded amounts is within a cent of the rounded sum. *)
Lemma round2_sum (a b : Q) :
  Qabs (round2 (a + b) - (round2 a + round2 b)) <= 1 # 100.
Proof.
  apply Qabs_Qle_condition.
  pose proof (round2_err a) as Ha. pose proof (round2_err b) as Hb.
  pose proof (round2_err (a + b)) as Hab.
  rewrite !round2_scaled in *.
  set (x := round_half_even ((a + b) * 100)) in *.
  set (y := round_half_even (a * 100)) in *.
  set (z := round_half_even (b * 100)) in *.
  assert (H1 : (x <= y + z + 1)%Z).
  { cut (x < y + z + 2)%Z; [lia|].
    rewrite Zlt_Qlt, !inject_Z_plus. change (inject_Z 2) with 2. lra. }
  assert (H2 : (y + z <= x + 1)%Z).
  { cut (y + z < x + 2)%Z; [lia|].
    rewrite Zlt_Qlt, !inject_Z_plus. change (inject_Z 2) with 2. lra. }
  rewrite Zle_Qle, !inject_Z_plus in H1, H2.
  change (inject_Z 1) with 1 in H1, H2. split; lra.
Qed.

End rounding.

(** ** Discounting *)

Section discounting.
Import vendor_compare.

Lemma npv_fold_None (r : Q) (l : list (Z * Q)) :
  foldl (npv_step r) None l = None.
Proof. induction l as [|tc l IH]; [done|apply IH]. Qed.

Lemma discounted_Some (r : Q) (t : Z) (c : Q) :
  ¬ 1 + r == 0 → discounted r (t, c) = Some (c / (1 + r) ^ t).
Proof.
  intros Hr. unfold discounted. simpl.
  destruct (Qeq_bool _ _) eqn:He; [|done].
  apply Qeq_bool_eq in He. by destruct (Qpower_not_0 (1 + r) t).
Qed.

Lemma discounted_None (r : Q) (t : Z) (c : Q) :
  1 + r == 0 → (0 < t)%Z → discounted r (t, c) = None.
Proof.
  intros Hr Ht. unfold discounted. simpl.
  destruct (Qeq_bool _ _) eqn:He; [done|].
  apply Qeq_bool_neq in He. destruct He.
  rewrite Hr. apply Qpower_0. lia.
Qed.

Lemma npv_fold_is_Some (r : Q) (l : list Q) (t : Z) (a : Q) :
  ¬ 1 + r == 0 → is_Some (foldl (npv_step r) (Some a) (enumerate t l)).
Proof.
  intros Hr. revert t a. induction l as [|c l IH]; intros t a; simpl; [eauto|].
  rewrite discounted_Some by done. simpl. apply IH.
Qed.

(** The discounted sum is defined unless a cost is divided by a zero
    power of [1 + r]. *)
Lemma npv_is_Some (series : list Q) (r : Q) :
  is_Some (npv series r) ↔ series = [] ∨ ¬ 1 + r == 0.
Proof.
  unfold npv. split.
  - intros Hs. destruct series as [|c l]; [by left|right]. intros Hr.
    simpl in Hs. rewrite discounted_None in Hs by (done || lia).
    simpl in Hs. rewrite npv_fold_None in Hs. by destruct Hs.
  - intros [->|Hr]; [by eexists|]. by apply npv_fold_is_Some.
Qed.

(** With [1 + r] not zero the sum is the plain left fold of the terms. *)
Lemma npv_fold_Some (r : Q) (l : list Q) (t : Z) (a : Q) :
  ¬ 1 + r == 0 →
  foldl (npv_step r) (Some a) (enumerate t l)
  = Some (foldl (fun acc tc => acc + tc.2 / (1 + r) ^ tc.1) a (enumerate t l)).
Proof.
  intros Hr. revert t a. induction l as [|c l IH]; intros t a; [done|].
  cbn [enumerate foldl]. unfold npv_step at 2.
  cbn [mbind option_bind]. rewrite discounted_Some by done.
  cbn [mbind option_bind]. apply IH.
Qed.

Lemma npv_singleton (c r : Q) :
  ¬ 1 + r == 0 → npv [c] r = Some (0 + c / (1 + r) ^ 1).
Proof. intros Hr. unfold npv. simpl. by rewrite discounted_Some. Qed.

End discounting.

(** ** The finance fallback chain *)

Section fallback.
Import vendor_compare spec.

Lemma resolve_fallback (a : option num) (costs : gmap string (gmap string num))
  (k : string) (d : num) :
  py_or a (_f (finance_of costs) k d) = fallback_if_nonzero a costs k d.
Proof.
  assert (Hf : _f (finance_of costs) k d = default d (in_finance costs k)).
  { unfold _f, finance_of, in_finance.
    destruct (costs !! "finance"%string) as [fin|]; simpl; [|done].
    case_decide as He; [|done]. by rewrite He, lookup_empty. }
  unfold py_or, fallback_if_nonzero. by rewrite Hf.
Qed.

(** What both estimators compute: the same three-level chain for the
    horizon, the discount rate and the energy rate, the second level being
    the value stored in the finance section and the last the constant 30,
    0.06 or 0.14.  The first level is taken by [or], and so only when the
    cluster value is not zero; a zero given on the cluster is skipped,
    which is the defect recorded for C1 below. *)
Lemma estimators_resolve_by_fallback (c : Cluster)
  (costs : gmap string (gmap string num)) :
  let ny := fallback_if_nonzero (Int <$> analysis_years c) costs
              "analysis_years" (Int 30) in
  let dr := fallback_if_nonzero (Float <$> discount_rate c) costs
              "discount_rate" (Float (6 # 100)) in
  let ek := fallback_if_nonzero (Float <$> energy_rate_per_kwh c) costs
              "energy_rate_per_kwh" (Float (14 # 100)) in
  estimate_vacuum c costs = (v ← costs !! "vacuum"; vacuum_body c v ny dr ek)
  ∧ estimate_pressure c costs
    = (p ← costs !! "pressure"; pressure_body c p ny dr ek).
Proof.
  unfold estimate_vacuum, estimate_pressure, resolve_ny, resolve_dr, resolve_ek.
  by rewrite !resolve_fallback.
Qed.

(** C1 fails on the code: the fallback is to take the value on the cluster
    if present, but a zero energy rate given on the cluster is not used.
    The estimate is the one of the finance rate 0.14, with a first-year
    cost of 14555, not the one of the chain that takes every present
    cluster value, whose first-year cost is 12000. *)
Lemma present_zero_is_skipped :
  let c := examples.cluster_free_energy in
  let costs := examples.book in
  let ny := fallback_if_present (Int <$> analysis_years c) costs
              "analysis_years" (Int 30) in
  let dr := fallback_if_present (Float <$> discount_rate c) costs
              "discount_rate" (Float (6 # 100)) in
  let ek := fallback_if_present (Float <$> energy_rate_per_kwh c) costs
              "energy_rate_per_kwh" (Float (14 # 100)) in
  energy_rate_per_kwh c = Some 0
  ∧ ∃ e e', estimate_vacuum c costs = Some e
      ∧ (v ← costs !! "vacuum"; vacuum_body c v ny dr ek) = Some e'
      ∧ annual_om_year1 e == 14555
      ∧ annual_om_year1 e' == 12000
      ∧ ¬ annual_om_year1 e == annual_om_year1 e'.
Proof.
  split; [done|]. eexists _, _. split; [|split]; [vm_compute; reflexivity ..|].
  vm_compute. done.
Qed.

End fallback.

(** ** Both estimators return on valid input *)

Section totality.
Import vendor_compare spec.

Lemma Qlt_bool_lt (a b : Q) : Qlt_bool a b = true → a < b.
Proof.
  unfold Qlt_bool. intros H. apply Qnot_le_lt. intros Hle.
  apply Qle_bool_iff in Hle. by rewrite Hle in H.
Qed.

Lemma valid_cluster_facts (c : Cluster) (costs : gmap string (gmap string num)) :
  valid_cluster c costs = true →
  (0 < num_lots c)%Z
  ∧ 0 <= est_main_lf c
  ∧ 0 <= est_laterals_lf c
  ∧ (∃ n, resolve_ny c (finance_of costs) = Int n)
  ∧ 0 < val (resolve_dr c (finance_of costs)) < 1.
Proof.
  unfold valid_cluster. rewrite !andb_true_iff.
  intros [[[[[Hn Hm] Hl] Hy] Hd0] Hd1].
  repeat split; try (by apply Qle_bool_iff) || (by apply Qlt_bool_lt); [lia|].
  destruct (resolve_ny _ _); [eauto|done].
Qed.

Lemma complete_book_facts (costs : gmap string (gmap string num)) :
  complete_book costs = true →
  ∃ v p, costs !! "vacuum"%string = Some v ∧ costs !! "pressure"%string = Some p
    ∧ has_keys v vacuum_keys = true ∧ has_keys p pressure_keys = true.
Proof.
  unfold complete_book.
  destruct (costs !! "vacuum"%string) as [v|]; [|done].
  destruct (costs !! "pressure"%string) as [p|]; [|done].
  rewrite andb_true_iff. intros [Hv Hp]. by exists v, p.
Qed.

Lemma has_keys_lookup (s : gmap string num) (ks : list string) (k : string) :
  has_keys s ks = true → k ∈ ks → is_Some (s !! k).
Proof.
  unfold has_keys. rewrite forallb_forall. intros H Hk.
  apply list_elem_of_In, H in Hk. by destruct (s !! k).
Qed.

Ltac have_key H k :=
  let x := fresh "x" in
  let E := fresh "E" in
  destruct (has_keys_lookup _ _ k H) as [x E];
  [unfold vacuum_keys, pressure_keys; set_solver|rewrite E; simpl].

Lemma vacuum_body_is_Some (c : Cluster) (v : gmap string num) (n : Z)
  (dr ek : num) :
  has_keys v vacuum_keys = true → ¬ 1 + val dr == 0 →
  is_Some (vacuum_body c v (Int n) dr ek).
Proof.
  intros Hk Hr. unfold vacuum_body, vacuum_capex, annual_om.
  have_key Hk "main_per_lf_shallow"%string.
  have_key Hk "lateral_per_lf"%string.
  have_key Hk "station_per_400_lots_ls"%string.
  have_key Hk "valve_pit_each"%string.
  have_key Hk "annual_om_per_conn"%string.
  have_key Hk "energy_kwh_per_conn_day"%string.
  match goal with
  | |- context [npv ?l ?r] =>
      destruct (proj2 (npv_is_Some l r) (or_intror Hr)) as [w ->]
  end.
  simpl. eauto.
Qed.

Lemma pressure_body_is_Some (c : Cluster) (p : gmap string num) (n : Z)
  (dr ek : num) :
  has_keys p pressure_keys = true → ¬ 1 + val dr == 0 →
  is_Some (pressure_body c p (Int n) dr ek).
Proof.
  intros Hk Hr. unfold pressure_body, pressure_capex, annual_om, operating_series.
  have_key Hk "main_per_lf_shallow"%string.
  have_key Hk "lateral_per_lf"%string.
  have_key Hk "grinder_pump_package_each"%string.
  have_key Hk "booster_ls"%string.
  have_key Hk "annual_om_per_conn"%string.
  have_key Hk "energy_kwh_per_conn_day"%string.
  have_key Hk "pump_replace_years"%string.
  have_key Hk "pump_replace_cost_each"%string.
  destruct (Qlt_le_dec 8000 (est_main_lf c)); simpl;
    match goal with
    | |- context [npv ?l ?r] =>
        destruct (proj2 (npv_is_Some l r) (or_intror Hr)) as [w ->]
    end; simpl; eauto.
Qed.

Lemma estimates_succeed (c : Cluster) (costs : gmap string (gmap string num)) :
  complete_book costs = true → valid_cluster c costs = true →
  ∃ ev ep, estimate_vacuum c costs = Some ev ∧ estimate_pressure c costs = Some ep.
Proof.
  intros Hb Hc.
  destruct (complete_book_facts _ Hb) as (v & p & Hv & Hp & Hkv & Hkp).
  destruct (valid_cluster_facts _ _ Hc) as (_ & _ & _ & [n Hn] & Hd0 & _).
  assert (Hr : ¬ 1 + val (resolve_dr c (finance_of costs)) == 0) by lra.
  unfold estimate_vacuum, estimate_pressure. rewrite Hv, Hp, Hn. simpl.
  destruct (vacuum_body_is_Some c v n _ (resolve_ek c (finance_of costs)) Hkv Hr)
    as [ev ->].
  destruct (pressure_body_is_Some c p n _ (resolve_ek c (finance_of costs)) Hkp Hr)
    as [ep ->].
  eauto.
Qed.

End totality.

(** ** Shape of the returned estimates *)

Section estimates.
Import vendor_compare spec.

Lemma vacuum_body_Some (c : Cluster) (v : gmap string num) (ny dr ek : num)
  (e : CostEstimate) :
  vacuum_body c v ny dr ek = Some e →
  ∃ cap y1 series x,
    vacuum_capex c v = Some cap ∧ annual_om c v ek = Some y1
    ∧ list_times y1 ny = Some series ∧ npv series (val dr) = Some x
    ∧ e = mkEstimate "Vacuum" (round2 cap) (round2 y1) (round2 x)
            (round2 (cap + x)).
Proof.
  unfold vacuum_body. intros H.
  destruct (vacuum_capex c v) as [cap|] eqn:?; [|done]. simpl in H.
  destruct (annual_om c v ek) as [y1|] eqn:?; [|done]. simpl in H.
  destruct (list_times y1 ny) as [series|] eqn:?; [|done]. simpl in H.
  destruct (npv series (val dr)) as [x|] eqn:?; [|done]. simpl in H.
  injection H as <-. exists cap, y1, series, x. by repeat split.
Qed.

Lemma pressure_body_Some (c : Cluster) (p : gmap string num) (ny dr ek : num)
  (e : CostEstimate) :
  pressure_body c p ny dr ek = Some e →
  ∃ cap annual series x,
    pressure_capex c p = Some cap ∧ annual_om c p ek = Some annual
    ∧ operating_series c p annual ny = Some series
    ∧ npv series (val dr) = Some x
    ∧ e = mkEstimate "Pressure" (round2 cap) (round2 annual) (round2 x)
            (round2 (cap + x)).
Proof.
  unfold pressure_body. intros H.
  destruct (pressure_capex c p) as [cap|] eqn:?; [|done]. simpl in H.
  destruct (annual_om c p ek) as [annual|] eqn:?; [|done]. simpl in H.
  destruct (operating_series c p annual ny) as [series|] eqn:?; [|done].
  simpl in H.
  destruct (npv series (val dr)) as [x|] eqn:?; [|done]. simpl in H.
  injection H as <-. exists cap, annual, series, x. by repeat split.
Qed.

Lemma estimate_vacuum_Some (c : Cluster) (costs : gmap string (gmap string num))
  (e : CostEstimate) :
  estimate_vacuum c costs = Some e →
  ∃ v, costs !! "vacuum"%string = Some v
    ∧ vacuum_body c v (resolve_ny c (finance_of costs))
        (resolve_dr c (finance_of costs)) (resolve_ek c (finance_of costs))
      = Some e.
Proof.
  unfold estimate_vacuum. destruct (costs !! "vacuum"%string) as [v|]; [|done].
  simpl. eauto.
Qed.

Lemma estimate_pressure_Some (c : Cluster) (costs : gmap string (gmap string num))
  (e : CostEstimate) :
  estimate_pressure c costs = Some e →
  ∃ p, costs !! "pressure"%string = Some p
    ∧ pressure_body c p (resolve_ny c (finance_of costs))
        (resolve_dr c (finance_of costs)) (resolve_ek c (finance_of costs))
      = Some e.
Proof.
  unfold estimate_pressure. destruct (costs !! "pressure"%string) as [p|]; [|done].
  simpl. eauto.
Qed.

(** C3: on a valid cluster and a complete cost book both estimators return,
    and in each returned estimate the field [npv_total] differs from the
    sum of the fields [capex] and [npv_om] by at most one cent, the three
    being rounded to two decimals separately. *)
Theorem npv_total_is_capex_plus_npv_om (c : Cluster)
  (costs : gmap string (gmap string num)) :
  complete_book costs = true → valid_cluster c costs = true →
  ∃ ev ep,
    estimate_vacuum c costs = Some ev ∧ estimate_pressure c costs = Some ep
    ∧ Qabs (npv_total ev - (capex ev + npv_om ev)) <= 1 # 100
    ∧ Qabs (npv_total ep - (capex ep + npv_om ep)) <= 1 # 100.
Proof.
  intros Hb Hc. destruct (estimates_succeed c costs Hb Hc) as (ev & ep & Hv & Hp).
  exists ev, ep. split; [done|]. split; [done|].
  apply estimate_vacuum_Some in Hv as (v & _ & Hv).
  apply estimate_pressure_Some in Hp as (p & _ & Hp).
  apply vacuum_body_Some in Hv as (cap & y1 & sv & x & _ & _ & _ & _ & ->).
  apply pressure_body_Some in Hp as (cap' & an & sp & x' & _ & _ & _ & _ & ->).
  simpl. split; apply round2_sum.
Qed.

Lemma npv_total_is_capex_plus_npv_om_witness :
  ∃ ev ep,
    estimate_vacuum examples.cluster10 examples.book = Some ev
    ∧ estimate_pressure examples.cluster10 examples.book = Some ep
    ∧ Qabs (npv_total ev - (capex ev + npv_om ev)) <= 1 # 100
    ∧ Qabs (npv_total ep - (capex ep + npv_om ep)) <= 1 # 100.
Proof.
  apply (npv_total_is_capex_plus_npv_om examples.cluster10 examples.book);
    vm_compute; reflexivity.
Defined.

End estimates.

(** ** The comparison *)

Section comparison.
Import vendor_compare spec.

(** C4: on a valid cluster [compare] returns the two estimates, prefers
    "Vacuum" exactly when the vacuum [npv_total] is strictly below the
    pressure one and "Pressure" otherwise, a tie included, and reports as
    [npv_delta] the absolute difference of the two totals rounded to two
    decimals. *)
Theorem compare_prefers_strictly_lower (c : Cluster)
  (costs : gmap string (gmap string num)) :
  complete_book costs = true → valid_cluster c costs = true →
  ∃ r,
    compare costs c = Some r
    ∧ estimate_vacuum c costs = Some (vacuum r)
    ∧ estimate_pressure c costs = Some (pressure r)
    ∧ (preferred r = "Vacuum"%string
       ↔ npv_total (vacuum r) < npv_total (pressure r))
    ∧ (preferred r = "Pressure"%string
       ↔ ¬ npv_total (vacuum r) < npv_total (pressure r))
    ∧ (npv_total (vacuum r) == npv_total (pressure r)
       → preferred r = "Pressure"%string)
    ∧ npv_delta r
      = round2 (Qabs (npv_total (vacuum r) - npv_total (pressure r))).
Proof.
  intros Hb Hc. destruct (estimates_succeed c costs Hb Hc) as (ev & ep & Hv & Hp).
  unfold compare. rewrite Hv, Hp. simpl. eexists. split; [reflexivity|].
  simpl. do 2 (split; [done|]).
  destruct (Qcompare_spec (npv_total ev) (npv_total ep)) as [He|Hl|Hg].
  - repeat split; try done; intros; lra.
  - repeat split; try done. intros; lra.
  - repeat split; try done; intros; lra.
Qed.

Lemma compare_prefers_strictly_lower_witness :
  ∃ r,
    compare examples.book examples.cluster10 = Some r
    ∧ estimate_vacuum examples.cluster10 examples.book = Some (vacuum r)
    ∧ estimate_pressure examples.cluster10 examples.book = Some (pressure r)
    ∧ (preferred r = "Vacuum"%string
       ↔ npv_total (vacuum r) < npv_total (pressure r))
    ∧ (preferred r = "Pressure"%string
       ↔ ¬ npv_total (vacuum r) < npv_total (pressure r))
    ∧ (npv_total (vacuum r) == npv_total (pressure r)
       → preferred r = "Pressure"%string)
    ∧ npv_delta r
      = round2 (Qabs (npv_total (vacuum r) - npv_total (pressure r))).
Proof.
  apply (compare_prefers_strictly_lower examples.cluster10 examples.book);
    vm_compute; reflexivity.
Defined.

(** On a tie the second system is preferred. *)
Example tie_prefers_pressure :
  ∃ r, compare examples.book_free examples.cluster10 = Some r
    ∧ npv_total (vacuum r) == npv_total (pressure r)
    ∧ preferred r = "Pressure"%string
    ∧ npv_delta r == 0.
Proof. eexists. split; [vm_compute; reflexivity|]. by vm_compute. Qed.

End comparison.

(** ** Capital cost of the vacuum system *)

Section vacuum_capital.
Import vendor_compare spec.

(** The ceiling of a true division by a positive int, in integer terms. *)
Lemma ceil_div_pos (a b : Z) : (0 < b)%Z → ceil_div a b = ((a + b - 1) / b)%Z.
Proof.
  intros Hb. unfold ceil_div, Qceiling.
  assert (He : - (inject_Z a / inject_Z b) == inject_Z (- a) / inject_Z b).
  { rewrite inject_Z_opp. unfold Qdiv. ring. }
  rewrite (Qfloor_comp _ _ He), <- Zdiv_Qdiv.
  symmetry. apply Z.opp_inj. rewrite Z.opp_involutive.
  apply (Z.div_unique _ _ _ (b * ((a + b - 1) / b) - a)%Z); [|lia].
  left. pose proof (Z.mul_div_le (a + b - 1) b Hb).
  pose proof (Z.mul_succ_div_gt (a + b - 1) b Hb). lia.
Qed.

Lemma ceil_div_stations (lots : Z) : ceil_div (Z.max 1 lots) 400 = stations lots.
Proof. rewrite ceil_div_pos by done. unfold stations. f_equal. lia. Qed.

Lemma ceil_div_valve_pits (lots : Z) : ceil_div lots 2 = valve_pits lots.
Proof. rewrite ceil_div_pos by done. unfold valve_pits. f_equal. lia. Qed.

Lemma stations_pos (lots : Z) : (1 <= stations lots)%Z.
Proof. unfold stations. apply Z.div_le_lower_bound; lia. Qed.

(** C8: with the four unit costs read from the vacuum section, the capital
    cost is main length times the main price, plus lateral length times the
    lateral price, plus one station price per started group of 400 lots
    and never fewer than one, plus one valve pit price per started pair of
    lots; the [capex] field of the estimate is that amount rounded to two
    decimals. *)
Theorem vacuum_capex_formula (c : Cluster) (costs : gmap string (gmap string num))
  (v : gmap string num) (main lat station pit : num) :
  costs !! "vacuum"%string = Some v →
  v !! "main_per_lf_shallow"%string = Some main →
  v !! "lateral_per_lf"%string = Some lat →
  v !! "station_per_400_lots_ls"%string = Some station →
  v !! "valve_pit_each"%string = Some pit →
  let amount :=
    est_main_lf c * val main
    + est_laterals_lf c * val lat
    + inject_Z (ceil_div (Z.max 1 (num_lots c)) 400) * val station
    + inject_Z (ceil_div (num_lots c) 2) * val pit in
  vacuum_capex c v = Some amount
  ∧ (∀ e, estimate_vacuum c costs = Some e → capex e = round2 amount)
  ∧ ceil_div (Z.max 1 (num_lots c)) 400 = ((Z.max 1 (num_lots c) + 399) / 400)%Z
  ∧ ceil_div (num_lots c) 2 = ((num_lots c + 1) / 2)%Z
  ∧ (1 <= ceil_div (Z.max 1 (num_lots c)) 400)%Z.
Proof.
  intros Hv Hm Hl Hs Hp amount.
  assert (Hcap : vacuum_capex c v = Some amount).
  { unfold vacuum_capex. by rewrite Hm, Hl, Hs, Hp. }
  split; [done|]. split.
  - intros e He. apply estimate_vacuum_Some in He as (v' & Hv' & He).
    rewrite Hv in Hv'. injection Hv' as <-.
    apply vacuum_body_Some in He as (cap & ? & ? & ? & Hc & _ & _ & _ & ->).
    rewrite Hcap in Hc. by injection Hc as <-.
  - rewrite ceil_div_stations, ceil_div_valve_pits.
    repeat split; [done..|apply stations_pos].
Qed.

Lemma vacuum_capex_formula_witness :
  let c := examples.cluster10 in
  let amount := 5000 * 50 + 2000 * 30 + inject_Z (ceil_div (Z.max 1 100) 400) * 150000
                + inject_Z (ceil_div 100 2) * 2000 in
  vacuum_capex c examples.vacuum_section = Some amount
  ∧ (∀ e, estimate_vacuum c examples.book = Some e → capex e = round2 amount)
  ∧ ceil_div (Z.max 1 100) 400 = ((Z.max 1 100 + 399) / 400)%Z
  ∧ ceil_div 100 2 = ((100 + 1) / 2)%Z
  ∧ (1 <= ceil_div (Z.max 1 100) 400)%Z.
Proof.
  apply (vacuum_capex_formula examples.cluster10 examples.book
           examples.vacuum_section (Int 50) (Int 30) (Int 150000) (Int 2000));
    reflexivity.
Defined.

(** A single lot is charged one station and one valve pit. *)
Example single_lot_one_station : stations 1 = 1%Z ∧ valve_pits 1 = 1%Z.
Proof. done. Qed.

End vacuum_capital.

(** ** Pump replacement in the pressure series *)

Section replacement.
Import vendor_compare spec.

Lemma range1_lookup (n t : Z) :
  (1 <= t <= n)%Z → seqZ 1 n !! Z.to_nat (t - 1) = Some t.
Proof. intros Ht. apply lookup_seqZ. lia. Qed.

(** C2: the operating series of the pressure system has one entry per year
    of the horizon; the entry of year [t], counted from 1, is the annual
    operating cost plus the replacement lump [num_lots * pump_replace_cost_each]
    when [t] is a multiple of the replacement interval, and plus nothing
    otherwise, the interval being [int] of the cost-book value and at least
    1.  With an interval of 5 and 10 years the lump is in years 5 and 10
    only.  The estimate discounts this series. *)
Theorem pump_replacement_years (c : Cluster) (costs : gmap string (gmap string num))
  (p : gmap string num) (pry prc : num) (annual : Q) (n : Z) :
  costs !! "pressure"%string = Some p →
  p !! "pump_replace_years"%string = Some pry →
  p !! "pump_replace_cost_each"%string = Some prc →
  annual_om c p (resolve_ek c (finance_of costs)) = Some annual →
  resolve_ny c (finance_of costs) = Int n →
  let every := Z.max 1 (py_int pry) in
  let lump := inject_Z (num_lots c) * val prc in
  ∃ series,
    operating_series c p annual (Int n) = Some series
    ∧ length series = Z.to_nat n
    ∧ (∀ t, (1 <= t <= n)%Z →
         series !! Z.to_nat (t - 1)
         = Some (annual + (if (t mod every =? 0)%Z then lump else 0)))
    ∧ (py_int pry = 5%Z → n = 10%Z →
       series = [ annual + 0; annual + 0; annual + 0; annual + 0; annual + lump;
                  annual + 0; annual + 0; annual + 0; annual + 0; annual + lump ])
    ∧ (∀ e, estimate_pressure c costs = Some e →
         ∃ x, npv series (val (resolve_dr c (finance_of costs))) = Some x
              ∧ npv_om e = round2 x).
Proof.
  intros Hp Hy Hc Ha Hn every lump.
  assert (Hs : operating_series c p annual (Int n)
               = Some ((fun y => annual + (if (y mod every =? 0)%Z then lump else 0))
                       <$> seqZ 1 n)).
  { unfold operating_series. by rewrite Hy, Hc. }
  eexists. split; [exact Hs|]. split; [|split; [|split]].
  - by rewrite length_fmap, length_seqZ.
  - intros t Ht. by rewrite list_lookup_fmap, range1_lookup.
  - intros H5 ->. unfold every. by rewrite H5.
  - intros e He. apply estimate_pressure_Some in He as (p' & Hp' & He).
    rewrite Hp in Hp'. injection Hp' as <-.
    apply pressure_body_Some in He as (cap & an & s & x & _ & Ha' & Hs' & Hx & ->).
    rewrite Ha in Ha'. injection Ha' as <-.
    rewrite Hn, Hs in Hs'. injection Hs' as <-. by exists x.
Qed.

Lemma pump_replacement_years_witness :
  let c := examples.cluster10 in
  let annual := 100 * 90 + 100 * (8 # 10) * 365 * (14 # 100) in
  let lump := 100 * 1500 in
  ∃ series,
    operating_series c examples.pressure_section annual (Int 10) = Some series
    ∧ length series = 10%nat
    ∧ (∀ t, (1 <= t <= 10)%Z →
         series !! Z.to_nat (t - 1)
         = Some (annual + (if (t mod 5 =? 0)%Z then lump else 0)))
    ∧ (5%Z = 5%Z → 10%Z = 10%Z →
       series = [ annual + 0; annual + 0; annual + 0; annual + 0; annual + lump;
                  annual + 0; annual + 0; annual + 0; annual + 0; annual + lump ])
    ∧ (∀ e, estimate_pressure c examples.book = Some e →
         ∃ x, npv series (6 # 100) = Some x ∧ npv_om e = round2 x).
Proof.
  apply (pump_replacement_years examples.cluster10 examples.book
           examples.pressure_section (Int 5) (Int 1500));
    reflexivity.
Defined.

(** With the lump in years 5 and 10 only, the discounted operating cost
    exceeds the one of the flat series by the lump discounted over 5 and
    over 10 years. *)
Lemma replacement_adds_two_discounted_lumps (annual lump r : Q) :
  ¬ 1 + r == 0 →
  ∃ x b,
    npv [ annual + 0; annual + 0; annual + 0; annual + 0; annual + lump;
          annual + 0; annual + 0; annual + 0; annual + 0; annual + lump ] r
    = Some x
    ∧ npv (replicate 10 annual) r = Some b
    ∧ x == b + lump / (1 + r) ^ 5 + lump / (1 + r) ^ 10.
Proof.
  intros Hr. unfold npv. rewrite !npv_fold_Some by done.
  eexists _, _. split; [reflexivity|]. split; [reflexivity|].
  cbn [replicate enumerate foldl fst snd].
  cbv [Z.add Pos.add Pos.succ Pos.add_carry]. unfold Qdiv. ring.
Qed.

End replacement.

(** ** Capital cost grows with the number of lots *)

Section monotonicity.
Import vendor_compare spec.

Lemma nonneg_section_lookup (s : gmap string num) (k : string) (x : num) :
  nonneg_section s = true → s !! k = Some x → 0 <= val x.
Proof.
  unfold nonneg_section. rewrite forallb_forall. intros H Hk.
  apply Qle_bool_iff, (H (k, x)), list_elem_of_In, elem_of_map_to_list, Hk.
Qed.

Lemma npv_is_Some_same_length (l l' : list Q) (r : Q) :
  length l = length l' → is_Some (npv l r) → is_Some (npv l' r).
Proof.
  rewrite !npv_is_Some. intros Hlen [->|Hr]; [left|by right].
  by destruct l'.
Qed.

Ltac case_lookups H :=
  repeat match type of H with
         | context [@lookup _ _ (gmap string num) _ ?k ?s] =>
             destruct (s !! k); simpl in H; [|done]
         end.

(** From a defined discounted sum in [H] to the one in the goal, over a
    series of the same length. *)
Ltac transfer_npv H :=
  let x := fresh "x" in
  let Hx := fresh "Hx" in
  match type of H with
  | context [npv ?l ?r] =>
      destruct (npv l r) as [x|] eqn:Hx; [|done];
      match goal with
      | |- context [npv ?l' r] =>
          let x' := fresh "x" in
          destruct (npv_is_Some_same_length l l' r) as [x' ->];
          [by rewrite ?length_replicate, ?length_fmap|by eexists|]
      end
  end.

(** Whether the vacuum estimate is defined does not depend on the cluster. *)
Lemma vacuum_body_defined (c1 c2 : Cluster) (v : gmap string num)
  (ny dr ek : num) :
  is_Some (vacuum_body c1 v ny dr ek) → is_Some (vacuum_body c2 v ny dr ek).
Proof.
  intros [e He]. unfold vacuum_body, vacuum_capex, annual_om in *.
  case_lookups He. simpl.
  destruct ny as [yrs|]; simpl in *; [|done].
  transfer_npv He. simpl. eauto.
Qed.

(** For the pressure estimate it depends on the length of the main only,
    which decides whether the booster price is read. *)
Lemma pressure_body_defined (c1 c2 : Cluster) (p : gmap string num)
  (ny dr ek : num) :
  est_main_lf c1 = est_main_lf c2 →
  is_Some (pressure_body c1 p ny dr ek) → is_Some (pressure_body c2 p ny dr ek).
Proof.
  intros Hm [e He].
  unfold pressure_body, pressure_capex, annual_om, operating_series in *.
  rewrite <- Hm.
  destruct (p !! "main_per_lf_shallow"%string); simpl in *; [|done].
  destruct (p !! "lateral_per_lf"%string); simpl in *; [|done].
  destruct (p !! "grinder_pump_package_each"%string); simpl in *; [|done].
  destruct (Qlt_le_dec 8000 (est_main_lf c1));
    [destruct (p !! "booster_ls"%string); simpl in *; [|done]|];
    simpl in *;
    case_lookups He; simpl;
    (destruct ny as [yrs|]; simpl in *; [|done]);
    transfer_npv He; simpl; eauto.
Qed.

Lemma same_but_lots_sym (c1 c2 : Cluster) :
  same_but_lots c1 c2 → same_but_lots c2 c1.
Proof. intros (? & ? & ? & ? & ?). by repeat split. Qed.

Lemma same_but_lots_resolve (c1 c2 : Cluster) (fin : gmap string num) :
  same_but_lots c1 c2 →
  resolve_ny c1 fin = resolve_ny c2 fin
  ∧ resolve_dr c1 fin = resolve_dr c2 fin
  ∧ resolve_ek c1 fin = resolve_ek c2 fin.
Proof.
  intros (_ & _ & Hy & Hd & He). unfold resolve_ny, resolve_dr, resolve_ek.
  by rewrite Hy, Hd, He.
Qed.

Lemma ceil_div_mono (a a' b : Z) :
  (0 < b)%Z → (a <= a')%Z → (ceil_div a b <= ceil_div a' b)%Z.
Proof.
  intros Hb Ha. rewrite !ceil_div_pos by done. apply Z.div_le_mono; lia.
Qed.

Lemma scale_mono (n n' : Z) (x : Q) :
  (n <= n')%Z → 0 <= x → inject_Z n * x <= inject_Z n' * x.
Proof.
  intros Hn Hx. apply Qmult_le_compat_r; [|done]. by rewrite <- Zle_Qle.
Qed.

Lemma vacuum_capex_mono (c1 c2 : Cluster) (v : gmap string num) (a1 a2 : Q) :
  nonneg_section v = true → same_but_lots c1 c2 →
  (num_lots c1 <= num_lots c2)%Z →
  vacuum_capex c1 v = Some a1 → vacuum_capex c2 v = Some a2 → a1 <= a2.
Proof.
  intros Hv (Hm & Hl & _) Hn. unfold vacuum_capex. rewrite Hm, Hl.
  destruct (v !! "main_per_lf_shallow"%string) as [main|]; [|done].
  destruct (v !! "lateral_per_lf"%string) as [lat|]; [|done].
  destruct (v !! "station_per_400_lots_ls"%string) as [st|] eqn:Hst; [|done].
  destruct (v !! "valve_pit_each"%string) as [pit|] eqn:Hpit; [|done].
  simpl. intros [= <-] [= <-].
  pose proof (scale_mono _ _ (val st)
                (ceil_div_mono (Z.max 1 (num_lots c1)) (Z.max 1 (num_lots c2)) 400
                   ltac:(done) ltac:(lia))
                (nonneg_section_lookup _ _ _ Hv Hst)).
  pose proof (scale_mono _ _ (val pit)
                (ceil_div_mono (num_lots c1) (num_lots c2) 2 ltac:(done) Hn)
                (nonneg_section_lookup _ _ _ Hv Hpit)).
  lra.
Qed.

Lemma pressure_capex_mono (c1 c2 : Cluster) (p : gmap string num) (a1 a2 : Q) :
  nonneg_section p = true → same_but_lots c1 c2 →
  (num_lots c1 <= num_lots c2)%Z →
  pressure_capex c1 p = Some a1 → pressure_capex c2 p = Some a2 → a1 <= a2.
Proof.
  intros Hp (Hm & Hl & _) Hn. unfold pressure_capex. rewrite Hm, Hl.
  destruct (p !! "main_per_lf_shallow"%string) as [main|]; [|done].
  destruct (p !! "lateral_per_lf"%string) as [lat|]; [|done].
  destruct (p !! "grinder_pump_package_each"%string) as [pump|] eqn:Hpump;
    [|done].
  simpl.
  destruct (if Qlt_le_dec 8000 (est_main_lf c2)
            then val <$> p !! "booster_ls"%string else Some 0) as [b|]; [|done].
  simpl. intros [= <-] [= <-].
  pose proof (scale_mono _ _ (val pump) Hn (nonneg_section_lookup _ _ _ Hp Hpump)).
  lra.
Qed.

(** C5: over a cost book with non-negative unit costs, of two clusters that
    differ in [num_lots] only, either both estimates of a system type fail
    or both return and the one with more lots has the higher or equal
    [capex]; this for the vacuum and for the pressure estimate. *)
Theorem capex_monotone_in_lots (c1 c2 : Cluster)
  (costs : gmap string (gmap string num)) :
  nonneg_book costs = true → same_but_lots c1 c2 →
  (num_lots c1 <= num_lots c2)%Z →
  match estimate_vacuum c1 costs, estimate_vacuum c2 costs with
  | Some e1, Some e2 => capex e1 <= capex e2
  | None, None => True
  | _, _ => False
  end
  ∧ match estimate_pressure c1 costs, estimate_pressure c2 costs with
    | Some e1, Some e2 => capex e1 <= capex e2
    | None, None => True
    | _, _ => False
    end.
Proof.
  intros Hb Hs Hn. unfold nonneg_book in Hb. apply andb_true_iff in Hb as [Hv Hp].
  destruct (same_but_lots_resolve c1 c2 (finance_of costs) Hs) as (Hy & Hd & He).
  pose proof Hs as (Hm & _).
  unfold estimate_vacuum, estimate_pressure. rewrite Hy, Hd, He. split.
  - destruct (costs !! "vacuum"%string) as [v|]; simpl in *; [|done].
    set (ny := resolve_ny c2 _). set (dr := resolve_dr c2 _).
    set (ek := resolve_ek c2 _).
    destruct (vacuum_body c1 v ny dr ek) as [e1|] eqn:H1;
      destruct (vacuum_body c2 v ny dr ek) as [e2|] eqn:H2.
    + apply vacuum_body_Some in H1 as (a1 & ? & ? & ? & Ha1 & _ & _ & _ & ->).
      apply vacuum_body_Some in H2 as (a2 & ? & ? & ? & Ha2 & _ & _ & _ & ->).
      simpl. eapply round2_mono, vacuum_capex_mono; eauto.
    + destruct (vacuum_body_defined c1 c2 v ny dr ek (mk_is_Some _ _ H1)) as [? H].
      by rewrite H in H2.
    + destruct (vacuum_body_defined c2 c1 v ny dr ek (mk_is_Some _ _ H2)) as [? H].
      by rewrite H in H1.
    + done.
  - destruct (costs !! "pressure"%string) as [p|]; simpl in *; [|done].
    set (ny := resolve_ny c2 _). set (dr := resolve_dr c2 _).
    set (ek := resolve_ek c2 _).
    destruct (pressure_body c1 p ny dr ek) as [e1|] eqn:H1;
      destruct (pressure_body c2 p ny dr ek) as [e2|] eqn:H2.
    + apply pressure_body_Some in H1 as (a1 & ? & ? & ? & Ha1 & _ & _ & _ & ->).
      apply pressure_body_Some in H2 as (a2 & ? & ? & ? & Ha2 & _ & _ & _ & ->).
      simpl. eapply round2_mono, pressure_capex_mono; eauto.
    + destruct (pressure_body_defined c1 c2 p ny dr ek Hm (mk_is_Some _ _ H1))
        as [? H].
      by rewrite H in H2.
    + destruct (pressure_body_defined c2 c1 p ny dr ek (eq_sym Hm)
                  (mk_is_Some _ _ H2)) as [? H].
      by rewrite H in H1.
    + done.
Qed.

Lemma capex_monotone_in_lots_witness :
  match estimate_vacuum examples.cluster10 examples.book,
        estimate_vacuum examples.cluster10_200 examples.book with
  | Some e1, Some e2 => capex e1 <= capex e2
  | None, None => True
  | _, _ => False
  end
  ∧ match estimate_pressure examples.cluster10 examples.book,
          estimate_pressure examples.cluster10_200 examples.book with
    | Some e1, Some e2 => capex e1 <= capex e2
    | None, None => True
    | _, _ => False
    end.
Proof.
  apply (capex_monotone_in_lots examples.cluster10 examples.cluster10_200
           examples.book).
  - vm_compute. reflexivity.
  - repeat split.
  - simpl. lia.
Defined.

(** The two capital costs of the witness: 560000 and 660000 for vacuum,
    700000 and 1150000 for pressure. *)
Example capex_of_100_and_200_lots :
  (capex <$> estimate_vacuum examples.cluster10 examples.book,
   capex <$> estimate_vacuum examples.cluster10_200 examples.book,
   capex <$> estimate_pressure examples.cluster10 examples.book,
   capex <$> estimate_pressure examples.cluster10_200 examples.book)
  = (Some (56000000 # 100), Some (66000000 # 100),
     Some (70000000 # 100), Some (115000000 # 100)).
Proof. vm_compute. reflexivity. Qed.

End monotonicity.

(** ** A single-year horizon *)

Section single_year.
Import vendor_compare spec.

Lemma first_year_replacement (every : Z) :
  (1 <= every)%Z → (1 mod every =? 0)%Z = (every =? 1)%Z.
Proof.
  intros He. destruct (decide (every = 1%Z)) as [->|Hne]; [done|].
  rewrite Z.mod_small by lia. symmetry. by apply Z.eqb_neq.
Qed.

(** A rounding error of half a cent stays below half a cent when it is
    discounted at a positive rate. *)
Lemma discounted_rounding (y r : Q) :
  0 < r →
  Qabs (round2 (y / (1 + r)) - round2 y / (1 + r)) <= 1 # 100.
Proof.
  intros Hr. apply Qabs_Qle_condition.
  pose proof (round2_err y) as Hy. pose proof (round2_err (y / (1 + r))) as Hq.
  assert (Hi : 0 < / (1 + r)) by (apply Qinv_lt_0_compat; lra).
  assert (Hi1 : / (1 + r) <= 1).
  { apply Qle_shift_inv_r; lra. }
  unfold Qdiv in *.
  set (i := / (1 + r)) in *. set (e := round2 y - y) in *.
  assert (He : round2 y * i == y * i + e * i) by (unfold e; ring).
  assert (Hb : - (1 # 200) <= e * i <= 1 # 200) by (split; nra).
  rewrite He. split; lra.
Qed.

(** C6, as amended: on a valid cluster whose horizon is one year both
    estimators return, and [npv_om] is the only entry of the operating
    series divided by [1 + discount_rate], rounded to two decimals.  For
    the vacuum system the entry is the first-year operating cost, so that
    [npv_om] is within a cent of [annual_om_year1 / (1 + discount_rate)];
    for the pressure system the entry is the annual cost plus the pump
    replacement lump when the replacement interval is 1, and the annual
    cost alone, with the same one-cent bound, when it is longer. *)
Theorem single_year_npv_om (c : Cluster) (costs : gmap string (gmap string num)) :
  complete_book costs = true → valid_cluster c costs = true →
  resolve_ny c (finance_of costs) = Int 1 →
  let dr := val (resolve_dr c (finance_of costs)) in
  let ek := resolve_ek c (finance_of costs) in
  ∃ ev ep,
    estimate_vacuum c costs = Some ev ∧ estimate_pressure c costs = Some ep
    ∧ (∀ v y1, costs !! "vacuum"%string = Some v → annual_om c v ek = Some y1 →
         annual_om_year1 ev = round2 y1
         ∧ npv_om ev == round2 (y1 / (1 + dr)))
    ∧ Qabs (npv_om ev - annual_om_year1 ev / (1 + dr)) <= 1 # 100
    ∧ (∀ p annual pry prc,
         costs !! "pressure"%string = Some p →
         annual_om c p ek = Some annual →
         p !! "pump_replace_years"%string = Some pry →
         p !! "pump_replace_cost_each"%string = Some prc →
         annual_om_year1 ep = round2 annual
         ∧ npv_om ep
           == round2 ((annual + (if (Z.max 1 (py_int pry) =? 1)%Z
                                 then inject_Z (num_lots c) * val prc else 0))
                      / (1 + dr))
         ∧ ((1 < py_int pry)%Z →
            Qabs (npv_om ep - annual_om_year1 ep / (1 + dr)) <= 1 # 100)).
Proof.
  intros Hb Hc Hn dr ek.
  destruct (estimates_succeed c costs Hb Hc) as (ev & ep & Hv & Hp).
  destruct (valid_cluster_facts _ _ Hc) as (_ & _ & _ & _ & Hd0 & _).
  fold dr in Hd0. assert (Hr : ¬ 1 + dr == 0) by lra.
  exists ev, ep. split; [done|]. split; [done|].
  apply estimate_vacuum_Some in Hv as (v & Hv & Hev).
  apply estimate_pressure_Some in Hp as (p & Hp & Hep).
  rewrite Hn in Hev, Hep. fold dr ek in Hev, Hep.
  apply vacuum_body_Some in Hev as (cv & y1 & sv & xv & _ & Hy1 & Hsv & Hxv & ->).
  apply pressure_body_Some in Hep as (cp & an & sp & xp & _ & Han & Hsp & Hxp & ->).
  injection Hsv as <-. change (replicate _ y1) with [y1] in Hxv.
  rewrite npv_singleton in Hxv by done. injection Hxv as <-.
  cbn [npv_om annual_om_year1]. split; [|split].
  - intros v' y1' Hv' Hy1'. rewrite Hv in Hv'. injection Hv' as <-.
    rewrite Hy1 in Hy1'. injection Hy1' as <-.
    split; [done|]. apply round2_comp. unfold dr. ring.
  - match goal with
    | |- context [round2 (0 + ?t)] =>
        assert (Hnv : round2 (0 + t) == round2 (y1 / (1 + dr)))
          by (apply round2_comp; unfold dr; ring);
        rewrite Hnv
    end.
    by apply discounted_rounding.
  - intros p' an' pry prc Hp' Han' Hpry Hprc.
    rewrite Hp in Hp'. injection Hp' as <-.
    rewrite Han in Han'. injection Han' as <-.
    unfold operating_series in Hsp. rewrite Hpry, Hprc in Hsp.
    injection Hsp as <-. change (seqZ 1 1) with [1%Z] in Hxp.
    cbn [fmap list_fmap] in Hxp. rewrite npv_singleton in Hxp by done.
    injection Hxp as <-. rewrite first_year_replacement by lia.
    split; [done|]. split.
    + apply round2_comp. unfold dr. ring.
    + intros Hlong. replace (Z.max 1 (py_int pry) =? 1)%Z with false
        by (symmetry; apply Z.eqb_neq; lia).
      match goal with
      | |- context [round2 (0 + ?t)] =>
          assert (Hnp : round2 (0 + t) == round2 (an / (1 + dr)))
            by (apply round2_comp; unfold dr, Qdiv; ring);
          rewrite Hnp
      end.
      by apply discounted_rounding.
Qed.

End single_year.

Section single_year_examples.
Import vendor_compare spec.

Lemma single_year_npv_om_witness :
  let c := examples.cluster1 in
  let costs := examples.book in
  let dr := val (resolve_dr c (finance_of costs)) in
  let ek := resolve_ek c (finance_of costs) in
  ∃ ev ep,
    estimate_vacuum c costs = Some ev ∧ estimate_pressure c costs = Some ep
    ∧ (∀ v y1, costs !! "vacuum"%string = Some v → annual_om c v ek = Some y1 →
         annual_om_year1 ev = round2 y1
         ∧ npv_om ev == round2 (y1 / (1 + dr)))
    ∧ Qabs (npv_om ev - annual_om_year1 ev / (1 + dr)) <= 1 # 100
    ∧ (∀ p annual pry prc,
         costs !! "pressure"%string = Some p →
         annual_om c p ek = Some annual →
         p !! "pump_replace_years"%string = Some pry →
         p !! "pump_replace_cost_each"%string = Some prc →
         annual_om_year1 ep = round2 annual
         ∧ npv_om ep
           == round2 ((annual + (if (Z.max 1 (py_int pry) =? 1)%Z
                                 then inject_Z (num_lots c) * val prc else 0))
                      / (1 + dr))
         ∧ ((1 < py_int pry)%Z →
            Qabs (npv_om ep - annual_om_year1 ep / (1 + dr)) <= 1 # 100)).
Proof.
  apply (single_year_npv_om examples.cluster1 examples.book);
    vm_compute; reflexivity.
Defined.

(** With pumps replaced every year the single year of the horizon carries
    the replacement lump: [npv_om] is 153856.60, [annual_om_year1] divided
    by 1.06 is about 12347.17. *)
Lemma yearly_pumps_enter_single_year :
  let c := examples.cluster1 in
  let costs := examples.book_yearly_pumps in
  resolve_ny c (finance_of costs) = Int 1
  ∧ resolve_dr c (finance_of costs) = Float (6 # 100)
  ∧ ∃ e, estimate_pressure c costs = Some e
      ∧ annual_om_year1 e == 13088
      ∧ npv_om e == 15385660 # 100
      ∧ ¬ npv_om e == annual_om_year1 e / (1 + (6 # 100))
      ∧ 141509 < npv_om e - annual_om_year1 e / (1 + (6 # 100)).
Proof.
  split; [done|]. split; [done|]. eexists. split; [vm_compute; reflexivity|].
  vm_compute. repeat split; done.
Qed.

End single_year_examples.

(** ** The route [POST /vendors/compare] *)

Section route.
Import vendor_compare spec.
Import vendors (field, Omitted, Null, Given, optional, validate_cluster,
                validate_req, model_dump, vendors_compare, post_vendors_compare,
                status_code, response, ReturnResult, ReturnResponse, ReturnError,
                outcome, Rejected, Raised, Returned).

Lemma lower_empty (s : string) : lower s = EmptyString → s = EmptyString.
Proof.
  destruct s as [|a [|b [|c s]]]; simpl; try done. by destruct (kelvin_sign a b c).
Qed.

Lemma str_or_nonempty (s d : string) : s ≠ EmptyString → str_or (Some s) d = s.
Proof. by destruct s. Qed.

(** The string the handler dispatches on. *)
Lemma handler_key (f : field string) :
  f ≠ Given EmptyString →
  lower (str_or (optional "json"%string f) "json") = fmt_key f.
Proof. destruct f as [| |[|a s]]; done. Qed.

Lemma fmt_key_empty (f : field string) :
  fmt_key f = EmptyString → f = Given EmptyString.
Proof.
  destruct f as [| |s]; [done..|]. unfold fmt_key. intros H.
  by rewrite (lower_empty s H).
Qed.

Lemma unsupported (k : string) :
  k ≠ "json"%string ∧ k ≠ "markdown"%string ∧ k ≠ "html"%string
  ∧ k ≠ "csv"%string ↔ k ∉ supported_formats.
Proof.
  unfold supported_formats. rewrite !not_elem_of_cons.
  pose proof (not_elem_of_nil k). tauto.
Qed.

(** C7, as amended: the comparison is computed first.  When it returns and
    [fmt] is a non-empty string that, lowercased, is none of json,
    markdown, html and csv, the handler renders nothing and returns the
    error object whose message quotes [fmt] as sent and lists
    json|markdown|html|csv, and the route answers with status 200; when
    [fmt] is the empty string the handler returns the JSON result; when
    the comparison raises, the exception leaves the handler whatever
    [fmt] is, and the route answers 500. *)
Theorem unknown_format_is_reported (costs : gmap string (gmap string num))
  (req : vendors.CompareReq) :
  let compared := compare costs (model_dump (vendors.cluster req)) in
  (∀ s res,
     vendors.fmt req = Some s → s ≠ EmptyString →
     lower s ∉ supported_formats → compared = Some res →
     let msg :=
       ("Unknown format '" +:+ s +:+ "'. Use json|markdown|html|csv")%string in
     vendors_compare costs req = Some (ReturnError msg)
     ∧ ∀ body, validate_req body = Some req →
         post_vendors_compare costs body = Returned (ReturnError msg)
         ∧ status_code (post_vendors_compare costs body) = 200%Z)
  ∧ (∀ res,
       vendors.fmt req = Some EmptyString → compared = Some res →
       vendors_compare costs req = Some (ReturnResult res))
  ∧ (compared = None →
     vendors_compare costs req = None
     ∧ ∀ body, validate_req body = Some req →
         post_vendors_compare costs body = Raised
         ∧ status_code (post_vendors_compare costs body) = 500%Z).
Proof.
  intros compared. split; [|split].
  - intros s res Hf Hs Hk Hres msg.
    assert (Hh : vendors_compare costs req = Some (ReturnError msg)).
    { unfold vendors_compare. fold compared.
      rewrite Hres, Hf, str_or_nonempty by done. simpl.
      apply unsupported in Hk as (? & ? & ? & ?). by repeat case_decide. }
    split; [done|]. intros body Hb. unfold post_vendors_compare.
    by rewrite Hb, Hh.
  - intros res Hf Hres. unfold vendors_compare. fold compared.
    by rewrite Hres, Hf.
  - intros Hres.
    assert (Hh : vendors_compare costs req = None).
    { unfold vendors_compare. fold compared. by rewrite Hres. }
    split; [done|]. intros body Hb. unfold post_vendors_compare.
    by rewrite Hb, Hh.
Qed.

Lemma unknown_format_is_reported_witness :
  let req := vendors.mkCompareReq
               (vendors.mkCluster 100 5000 2000 (Some 10%Z) None None)
               (Some "Xml"%string) None in
  let msg := "Unknown format 'Xml'. Use json|markdown|html|csv"%string in
  vendors_compare examples.book req = Some (ReturnError msg)
  ∧ ∀ body, validate_req body = Some req →
      post_vendors_compare examples.book body = Returned (ReturnError msg)
      ∧ status_code (post_vendors_compare examples.book body) = 200%Z.
Proof.
  assert (Hk : lower "Xml" ∉ supported_formats)
    by (apply unsupported; by vm_compute).
  assert (Hres : ∃ res, compare examples.book examples.cluster10 = Some res)
    by (eexists; vm_compute; reflexivity).
  destruct Hres as [res Hres].
  destruct (unknown_format_is_reported examples.book
              (vendors.mkCompareReq
                 (vendors.mkCluster 100 5000 2000 (Some 10%Z) None None)
                 (Some "Xml"%string) None)) as [H _].
  exact (H "Xml"%string res eq_refl ltac:(discriminate) Hk Hres).
Defined.

(** The word MARKDOWN written with U+212A KELVIN SIGN for its K lowers to
    markdown, and is rendered, not reported. *)
Example kelvin_sign_is_k :
  let kelvin := String (ascii_of_nat 226)
                  (String (ascii_of_nat 132)
                     (String (ascii_of_nat 170) EmptyString)) in
  let word := ("MAR" +:+ kelvin +:+ "DOWN")%string in
  lower word = "markdown"%string
  ∧ ∃ md,
      vendors_compare examples.book
        (vendors.mkCompareReq
           (vendors.mkCluster 100 5000 2000 (Some 10%Z) None None)
           (Some word) None)
      = Some (ReturnResponse md "text/markdown" []).
Proof. split; [reflexivity|]. eexists. vm_compute. reflexivity. Qed.

(** A request with the unknown format "xml" and a discount rate of -1 is
    accepted by the request model; the comparison, which runs before the
    format is looked at, divides by zero, and the route answers 500. *)
Lemma unknown_format_after_failed_comparison :
  let body := examples.body_xml_rate_minus_one in
  is_Some (validate_req body)
  ∧ vendors.body_fmt body = Given "xml"%string
  ∧ (lower "xml" ∉ supported_formats)
  ∧ post_vendors_compare examples.book body = Raised
  ∧ status_code (post_vendors_compare examples.book body) = 500%Z.
Proof.
  split; [by eexists|]. split; [done|].
  split; [apply unsupported; by vm_compute|].
  split; vm_compute; reflexivity.
Qed.

(** An empty [fmt] is no supported format either, and is answered with
    the JSON result. *)
Example empty_format_is_json :
  let req := vendors.mkCompareReq
               (vendors.mkCluster 100 5000 2000 (Some 10%Z) None None)
               (Some EmptyString) None in
  (EmptyString ∉ supported_formats)
  ∧ vendors_compare examples.book req
    = ReturnResult <$> compare examples.book examples.cluster10.
Proof. split; [by apply unsupported|]. vm_compute. reflexivity. Qed.

(** What the handler returns once the comparison is known depends on the
    format only through the dispatch key, but for the text of the error. *)
Lemma vendors_compare_same_key (costs : gmap string (gmap string num))
  (c : vendors.Cluster) (fn : option string) (f1 f2 : option string) :
  lower (str_or f1 "json") = lower (str_or f2 "json") →
  let r1 := vendors_compare costs (vendors.mkCompareReq c f1 fn) in
  let r2 := vendors_compare costs (vendors.mkCompareReq c f2 fn) in
  (lower (str_or f1 "json") ∈ supported_formats → r1 = r2)
  ∧ (r1 = r2 ∨ ∃ m1 m2, r1 = Some (ReturnError m1) ∧ r2 = Some (ReturnError m2)).
Proof.
  intros Hk. unfold vendors_compare. simpl. rewrite <- Hk.
  destruct (compare costs (model_dump c)) as [res|]; simpl; [|by auto].
  unfold supported_formats. rewrite !elem_of_cons, elem_of_nil.
  repeat case_decide; split; try (by auto); [|by eauto].
  intros [?|[?|[?|[?|[]]]]]; congruence.
Qed.

Lemma empty_fmt_dec (f : field string) :
  {f = Given EmptyString} + {f ≠ Given EmptyString}.
Proof. destruct f as [| |[|a s]]; (by left) || (by right). Qed.

(** C10: two requests that differ in [fmt] only and have the same key, the
    lowercased [fmt] with an absent or null [fmt] read as "json", get the
    same rendering: the same answer whenever the key is a supported
    format, and otherwise at most two error objects that differ in the
    quoted [fmt]. *)
Theorem rendering_depends_on_fmt_key (costs : gmap string (gmap string num))
  (cb : vendors.ClusterBody) (fn : field string) (f1 f2 : field string) :
  fmt_key f1 = fmt_key f2 →
  let o1 := post_vendors_compare costs (vendors.mkCompareBody cb f1 fn) in
  let o2 := post_vendors_compare costs (vendors.mkCompareBody cb f2 fn) in
  (fmt_key f1 ∈ supported_formats → o1 = o2)
  ∧ (o1 = o2
     ∨ ∃ m1 m2, o1 = Returned (ReturnError m1) ∧ o2 = Returned (ReturnError m2)).
Proof.
  intros Hk.
  destruct (empty_fmt_dec f1) as [->|H1].
  { symmetry in Hk. apply fmt_key_empty in Hk as ->. simpl. auto. }
  destruct (empty_fmt_dec f2) as [->|H2].
  { by apply fmt_key_empty in Hk. }
  unfold post_vendors_compare, validate_req. simpl.
  destruct (validate_cluster cb) as [c|]; simpl; [|by auto].
  pose proof (vendors_compare_same_key costs c
                (match fn with Given f => Some f | _ => None end)
                (optional "json"%string f1) (optional "json"%string f2)) as Hh.
  rewrite !handler_key in Hh by done. destruct (Hh Hk) as [Hs He].
  split.
  - intros Hin. by rewrite (Hs Hin).
  - destruct He as [->|(m1 & m2 & -> & ->)]; [by left|right; eauto].
Qed.

Lemma rendering_depends_on_fmt_key_witness :
  let o1 := post_vendors_compare examples.book
              (vendors.mkCompareBody examples.body_cluster10 Null Omitted) in
  let o2 := post_vendors_compare examples.book
              (vendors.mkCompareBody examples.body_cluster10
                 (Given "JSON"%string) Omitted) in
  (fmt_key (@Null string) ∈ supported_formats → o1 = o2)
  ∧ (o1 = o2
     ∨ ∃ m1 m2, o1 = Returned (ReturnError m1) ∧ o2 = Returned (ReturnError m2)).
Proof.
  apply (rendering_depends_on_fmt_key examples.book examples.body_cluster10
           Omitted Null (Given "JSON"%string)).
  reflexivity.
Defined.

(** Absent, null, "json" and "JSON" all select the JSON result. *)
Example json_by_default :
  let post f := post_vendors_compare examples.book
                  (vendors.mkCompareBody examples.body_cluster10 f Omitted) in
  post Omitted = post (Given "json"%string)
  ∧ post Null = post (Given "json"%string)
  ∧ post (Given "JSON"%string) = post (Given "json"%string)
  ∧ ∃ res, post (Given "json"%string) = Returned (ReturnResult res).
Proof.
  repeat split; try (vm_compute; reflexivity).
  eexists. vm_compute. reflexivity.
Qed.

End route.

(** ** Defaults of the request model and the finance section *)

Section request_defaults.
Import vendor_compare spec.
Import vendors (Omitted, Null, Given, optional, validate_cluster, validate_req,
                model_dump, vendors_compare, post_vendors_compare,
                ReturnResult, Returned).

Lemma py_or_truthy (x b : num) : truthy x = true → py_or (Some x) b = x.
Proof. unfold py_or. by intros ->. Qed.

(** A cluster whose three optional fields hold the request defaults is
    costed without looking at the finance section. *)
Lemma compare_ignores_finance (costs costs' : gmap string (gmap string num))
  (c : Cluster) :
  costs !! "vacuum"%string = costs' !! "vacuum"%string →
  costs !! "pressure"%string = costs' !! "pressure"%string →
  analysis_years c = Some 30%Z → discount_rate c = Some (6 # 100) →
  energy_rate_per_kwh c = Some (14 # 100) →
  compare costs c = compare costs' c.
Proof.
  intros Hv Hp Hy Hd He.
  unfold compare, estimate_vacuum, estimate_pressure,
    resolve_ny, resolve_dr, resolve_ek.
  by rewrite Hv, Hp, Hy, Hd, He.
Qed.

(** C9, as amended: each of [analysis_years], [discount_rate] and
    [energy_rate_per_kwh] reaches the cost model as the request model
    validates it: 30, 0.06 or 0.14 when the cluster body leaves it out, an
    absent value when it is sent as [null], the sent value otherwise.  A
    member left out is resolved to its default whatever the finance section
    holds, and when all three are left out two cost books with the same
    vacuum and pressure sections give the same answer.  A member sent as
    [null] is resolved from the finance section: to the value stored
    there, and to the default when there is none. *)
Theorem omitted_members_take_request_defaults
  (costs costs' : gmap string (gmap string num)) (body : vendors.CompareBody) :
  costs !! "vacuum"%string = costs' !! "vacuum"%string →
  costs !! "pressure"%string = costs' !! "pressure"%string →
  let cb := vendors.body_cluster body in
  (∀ req, validate_req body = Some req →
     let c := model_dump (vendors.cluster req) in
     analysis_years c
     = match vendors.body_analysis_years cb with
       | Omitted => Some 30%Z
       | Null => None
       | Given y => Some y
       end
     ∧ discount_rate c
       = match vendors.body_discount_rate cb with
         | Omitted => Some (6 # 100)
         | Null => None
         | Given d => Some d
         end
     ∧ energy_rate_per_kwh c
       = match vendors.body_energy_rate_per_kwh cb with
         | Omitted => Some (14 # 100)
         | Null => None
         | Given k => Some k
         end
     ∧ (vendors.body_analysis_years cb = Omitted →
        analysis_years c = Some 30%Z ∧ ∀ fin, resolve_ny c fin = Int 30)
     ∧ (vendors.body_discount_rate cb = Omitted →
        discount_rate c = Some (6 # 100)
        ∧ ∀ fin, resolve_dr c fin = Float (6 # 100))
     ∧ (vendors.body_energy_rate_per_kwh cb = Omitted →
        energy_rate_per_kwh c = Some (14 # 100)
        ∧ ∀ fin, resolve_ek c fin = Float (14 # 100))
     ∧ (vendors.body_analysis_years cb = Null →
        ∀ book, resolve_ny c (finance_of book)
                = default (Int 30) (in_finance book "analysis_years"))
     ∧ (vendors.body_discount_rate cb = Null →
        ∀ book, resolve_dr c (finance_of book)
                = default (Float (6 # 100)) (in_finance book "discount_rate"))
     ∧ (vendors.body_energy_rate_per_kwh cb = Null →
        ∀ book, resolve_ek c (finance_of book)
                = default (Float (14 # 100))
                    (in_finance book "energy_rate_per_kwh")))
  ∧ (vendors.body_analysis_years cb = Omitted →
     vendors.body_discount_rate cb = Omitted →
     vendors.body_energy_rate_per_kwh cb = Omitted →
     post_vendors_compare costs body = post_vendors_compare costs' body).
Proof.
  intros Hv Hp cb.
  assert (Hreq : ∀ req, validate_req body = Some req →
            ∃ c, validate_cluster cb = Some c ∧ vendors.cluster req = c
              ∧ vendors.analysis_years c
                = optional 30%Z (vendors.body_analysis_years cb)
              ∧ vendors.discount_rate c
                = optional (6 # 100) (vendors.body_discount_rate cb)
              ∧ vendors.energy_rate_per_kwh c
                = optional (14 # 100) (vendors.body_energy_rate_per_kwh cb)).
  { intros req. unfold validate_req. fold cb.
    destruct (validate_cluster cb) as [c|] eqn:Hc; [|done].
    simpl. intros [= <-]. exists c. split; [done|]. split; [done|].
    unfold validate_cluster in Hc.
    destruct (_ && _); [|done]. by injection Hc as <-. }
  split.
  - intros req Hr c. destruct (Hreq req Hr) as (m & _ & Hm & Hy & Hd & He).
    subst c. rewrite Hm. unfold resolve_ny, resolve_dr, resolve_ek, model_dump.
    simpl. rewrite Hy, Hd, He.
    split; [by destruct (vendors.body_analysis_years cb)|].
    split; [by destruct (vendors.body_discount_rate cb)|].
    split; [by destruct (vendors.body_energy_rate_per_kwh cb)|].
    split; [|split; [|split; [|split; [|split]]]].
    1-3: intros Ho; rewrite Ho; (split; [done|]); intros fin;
      by apply py_or_truthy.
    all: intros Ho book; rewrite Ho; simpl;
      change (_f (finance_of book) ?k ?d) with (py_or None (_f (finance_of book) k d));
      apply resolve_fallback.
  - intros Oy Od Oe. unfold post_vendors_compare.
    destruct (validate_req body) as [req|]; [|done].
    destruct (Hreq req eq_refl) as (m & _ & Hm & Hy & Hd & He).
    rewrite Oy in Hy. rewrite Od in Hd. rewrite Oe in He.
    unfold vendors_compare.
    rewrite (compare_ignores_finance costs costs' (model_dump (vendors.cluster req)));
      [done|done|done|by rewrite Hm..].
Qed.

Lemma omitted_members_take_request_defaults_witness :
  post_vendors_compare examples.book examples.body_defaults
  = post_vendors_compare examples.book_rate_3 examples.body_defaults.
Proof.
  assert (Hv : examples.book !! "vacuum"%string
               = examples.book_rate_3 !! "vacuum"%string)
    by (symmetry; apply lookup_insert_ne; discriminate).
  assert (Hp : examples.book !! "pressure"%string
               = examples.book_rate_3 !! "pressure"%string)
    by (symmetry; apply lookup_insert_ne; discriminate).
  destruct (omitted_members_take_request_defaults examples.book
              examples.book_rate_3 examples.body_defaults Hv Hp) as [_ H].
  exact (H eq_refl eq_refl eq_refl).
Defined.

(** A discount rate sent as [null] passes the request model as an absent
    value, and the rate of the finance section decides the answer: with
    0.06 in the cost book the vacuum [npv_om] is 200347.12, with 0.03 it
    is 285284.42. *)
Lemma null_member_reaches_finance :
  let body := examples.body_null_rate in
  vendors.body_analysis_years (vendors.body_cluster body) = Omitted
  ∧ vendors.body_discount_rate (vendors.body_cluster body) = Null
  ∧ (discount_rate <$> (model_dump <$> (vendors.cluster <$> validate_req body)))
    = Some None
  ∧ examples.book_rate_3 !! "vacuum"%string = examples.book !! "vacuum"%string
  ∧ examples.book_rate_3 !! "pressure"%string = examples.book !! "pressure"%string
  ∧ ∃ r r',
      post_vendors_compare examples.book body = Returned (ReturnResult r)
      ∧ post_vendors_compare examples.book_rate_3 body
        = Returned (ReturnResult r')
      ∧ npv_om (vacuum r) == 20034712 # 100
      ∧ npv_om (vacuum r') == 28528442 # 100
      ∧ ¬ npv_om (vacuum r) == npv_om (vacuum r').
Proof.
  split; [done|]. split; [done|]. split; [vm_compute; reflexivity|].
  split; [apply lookup_insert_ne; discriminate|].
  split; [apply lookup_insert_ne; discriminate|].
  eexists _, _. split; [vm_compute; reflexivity|].
  split; [vm_compute; reflexivity|]. vm_compute. repeat split; done.
Qed.

End request_defaults.

(** * Further behaviour of the cost model *)

(** ** The discounted sum *)

Section present_values.
Import vendor_compare spec behaviour.

Lemma fold_present_value (r : Q) (l : list Q) (t : Z) (a : Q) :
  foldl (fun acc tc => acc + tc.2 / (1 + r) ^ tc.1) a (enumerate t l)
  == a + present_value r t l.
Proof.
  revert t a. induction l as [|c l IH]; intros t a; simpl; [ring|].
  rewrite IH. ring.
Qed.

Lemma npv_present_value (series : list Q) (r : Q) :
  ¬ 1 + r == 0 → ∃ x, npv series r = Some x ∧ x == present_value r 1 series.
Proof.
  intros Hr. unfold npv. rewrite npv_fold_Some by done.
  eexists. split; [done|]. rewrite fold_present_value. ring.
Qed.

(** X1: on a series that is not empty [npv] raises at a rate of -1, the
    first term being divided by zero; on the empty series it returns 0
    at every rate, -1 included. *)
Theorem npv_division_by_zero (series : list Q) (r : Q) :
  (series ≠ [] → 1 + r == 0 → npv series r = None)
  ∧ npv [] r = Some 0.
Proof.
  split; [|done]. intros Hs Hr.
  apply eq_None_not_Some. rewrite npv_is_Some. by intros [?|?].
Qed.

Lemma present_value_rate_0 (t : Z) (l : list Q) :
  present_value 0 t l == total l.
Proof.
  revert t. induction l as [|c l IH]; intros t; simpl; [done|].
  rewrite IH. assert (H1 : (1 + 0) ^ t == 1).
  { assert (He : 1 + 0 == 1) by ring. rewrite He. apply Qpower_1. }
  rewrite H1. unfold total. field.
Qed.

(** X2: at a discount rate of zero [npv] is the plain sum of the series. *)
Theorem npv_rate_0 (series : list Q) :
  ∃ x, npv series 0 = Some x ∧ x == total series.
Proof.
  destruct (npv_present_value series 0) as (x & Hx & He); [done|].
  exists x. split; [done|]. by rewrite He, present_value_rate_0.
Qed.

Lemma Qpower_succ (q : Q) (z : Z) : ¬ q == 0 → q ^ (z + 1) == q ^ z * q.
Proof. intros Hq. rewrite Qpower_plus by done. by rewrite Qpower_1_r. Qed.

(** The value of a constant series, the first payment in year [t]. *)
Lemma present_value_constant (r : Q) (t : Z) (n : nat) (y : Q) :
  ¬ r == 0 → ¬ 1 + r == 0 →
  present_value r t (replicate n y)
  == y * (1 - / (1 + r) ^ Z.of_nat n) / (r * (1 + r) ^ (t - 1)).
Proof.
  intros Hr Hq. revert t. induction n as [|n IH]; intros t.
  - simpl. field. split; [by apply Qpower_not_0|done].
  - cbn [replicate present_value]. rewrite IH.
    replace (t + 1 - 1)%Z with (t - 1 + 1)%Z by lia.
    replace t with (t - 1 + 1)%Z at 1 by lia.
    rewrite Nat2Z.inj_succ. unfold Z.succ. rewrite !Qpower_succ by done.
    pose proof (Qpower_not_0 (1 + r) (t - 1) Hq).
    pose proof (Qpower_not_0 (1 + r) (Z.of_nat n) Hq).
    set (P := (1 + r) ^ (t - 1)) in *. set (A := (1 + r) ^ Z.of_nat n) in *.
    field. repeat split; done.
Qed.

(** X3: over a horizon of [n >= 0] years and at a discount rate other than
    0 and -1, the vacuum [npv_om] is the annuity value of the first-year
    operating cost, [y1 * (1 - (1 + r)^-n) / r], rounded to two decimals. *)
Theorem vacuum_npv_om_annuity (c : Cluster) (costs : gmap string (gmap string num))
  (v : gmap string num) (n : Z) (y1 : Q) (e : CostEstimate) :
  let dr := val (resolve_dr c (finance_of costs)) in
  costs !! "vacuum"%string = Some v →
  resolve_ny c (finance_of costs) = Int n → (0 <= n)%Z →
  ¬ dr == 0 → ¬ 1 + dr == 0 →
  annual_om c v (resolve_ek c (finance_of costs)) = Some y1 →
  estimate_vacuum c costs = Some e →
  npv_om e == round2 (y1 * (1 - / (1 + dr) ^ n) / dr).
Proof.
  intros dr Hv Hn Hpos Hr Hq Hy He.
  apply estimate_vacuum_Some in He as (v' & Hv' & He).
  rewrite Hv in Hv'. injection Hv' as <-. rewrite Hn in He.
  apply vacuum_body_Some in He as (cap & y & s & x & _ & Hy' & Hs & Hx & ->).
  rewrite Hy in Hy'. injection Hy' as <-. injection Hs as <-.
  destruct (npv_present_value (replicate (Z.to_nat n) y1) dr Hq) as (x' & Hx' & Hp).
  fold dr in Hx. rewrite Hx in Hx'. injection Hx' as <-.
  cbn [npv_om]. apply round2_comp. rewrite Hp.
  rewrite present_value_constant by done. rewrite Z2Nat.id by done.
  change (1 - 1)%Z with 0%Z. simpl ((1 + dr) ^ 0).
  by rewrite Qmult_1_r.
Qed.

Lemma vacuum_npv_om_annuity_witness :
  let y1 := 100 * 120 + 100 * (1 # 2) * 365 * (14 # 100) in
  ∃ e, estimate_vacuum examples.cluster10 examples.book = Some e
    ∧ npv_om e == round2 (y1 * (1 - / (1 + (6 # 100)) ^ 10) / (6 # 100)).
Proof.
  eexists. split; [vm_compute; reflexivity|].
  apply (vacuum_npv_om_annuity examples.cluster10 examples.book
           examples.vacuum_section 10
           (100 * 120 + 100 * (1 # 2) * 365 * (14 # 100)));
    [reflexivity|reflexivity|lia|by vm_compute|by vm_compute
    |reflexivity|vm_compute; reflexivity].
Defined.

Lemma present_value_nonneg (r : Q) (t : Z) (l : list Q) :
  0 < 1 + r → Forall (Qle 0) l → 0 <= present_value r t l.
Proof.
  intros Hq Hl. revert t. induction Hl as [|c l Hc Hl IH]; intros t; simpl;
    [lra|].
  pose proof (Qpower_0_lt (1 + r) t Hq) as Hd.
  assert (0 <= c / (1 + r) ^ t) by (apply Qle_shift_div_l; [done|lra]).
  specialize (IH (t + 1)%Z). lra.
Qed.

Lemma present_value_mono (r : Q) (t : Z) (l l' : list Q) :
  0 < 1 + r → Forall2 Qle l l' → present_value r t l <= present_value r t l'.
Proof.
  intros Hq Hl. revert t. induction Hl as [|c c' l l' Hc Hl IH]; intros t; simpl;
    [lra|].
  pose proof (Qpower_0_lt (1 + r) t Hq) as Hd.
  assert (c / (1 + r) ^ t <= c' / (1 + r) ^ t).
  { unfold Qdiv. apply Qmult_le_compat_r; [done|].
    apply Qlt_le_weak, Qinv_lt_0_compat, Hd. }
  specialize (IH (t + 1)%Z). lra.
Qed.

End present_values.

(** ** When the estimators return *)

Section definedness.
Import vendor_compare spec behaviour.

Lemma is_Some_bind_Some {A B : Type} (mx : option A) (f : A → B) :
  is_Some (mx ≫= fun x => Some (f x)) ↔ is_Some mx.
Proof. destruct mx; simpl; split; intros [? ?]; by eauto. Qed.

Lemma npv_replicate_is_Some (n : Z) (y r : Q) :
  is_Some (npv (replicate (Z.to_nat n) y) r) ↔ (n <= 0)%Z ∨ ¬ 1 + r == 0.
Proof.
  rewrite npv_is_Some. split; (intros [H|H]; [left|by right]).
  - apply (f_equal length) in H. rewrite length_replicate in H. simpl in H. lia.
  - by replace (Z.to_nat n) with 0%nat by lia.
Qed.

Lemma npv_years_is_Some (n : Z) (f : Z → Q) (r : Q) :
  is_Some (npv (f <$> seqZ 1 n) r) ↔ (n <= 0)%Z ∨ ¬ 1 + r == 0.
Proof.
  rewrite npv_is_Some. split; (intros [H|H]; [left|by right]).
  - apply (f_equal length) in H. rewrite length_fmap, length_seqZ in H.
    simpl in H. lia.
  - apply length_zero_iff_nil. rewrite length_fmap, length_seqZ. lia.
Qed.

Ltac lookup_cases :=
  repeat match goal with
         | |- context [@lookup _ _ (gmap string num) _ ?k ?s] =>
             destruct (s !! k) eqn:?; simpl;
             [|split; [by intros [? ?]|by intros [? ?]]]
         end.

Lemma vacuum_body_returns_iff (c : Cluster) (v : gmap string num)
  (ny dr ek : num) :
  is_Some (vacuum_body c v ny dr ek)
  ↔ has_keys v vacuum_keys = true
    ∧ ∃ n, ny = Int n ∧ ((n <= 0)%Z ∨ ¬ 1 + val dr == 0).
Proof.
  unfold vacuum_body, vacuum_capex, annual_om, has_keys, vacuum_keys.
  cbn [forallb]. lookup_cases.
  destruct ny as [yrs|fl]; cbn [list_times mbind option_bind].
  - rewrite is_Some_bind_Some, npv_replicate_is_Some. split.
    + intros H. split; [done|]. by exists yrs.
    + by intros [_ (n' & [= <-] & H)].
  - split; [by intros [? ?]|by intros [_ (? & ? & _)]].
Qed.

(** X4: whenever [estimate_vacuum] returns, the cost book has a vacuum
    section with the six keys the formulas read, the effective horizon is
    an int, and the horizon is not positive or the effective discount
    rate is not -1; on an input that misses one of these it raises. *)
Theorem estimate_vacuum_returns_only_if (c : Cluster)
  (costs : gmap string (gmap string num)) (e : CostEstimate) :
  estimate_vacuum c costs = Some e →
  ∃ v n,
    costs !! "vacuum"%string = Some v
    ∧ has_keys v vacuum_keys = true
    ∧ resolve_ny c (finance_of costs) = Int n
    ∧ ((n <= 0)%Z ∨ ¬ 1 + val (resolve_dr c (finance_of costs)) == 0).
Proof.
  unfold estimate_vacuum.
  destruct (costs !! "vacuum"%string) as [v|]; simpl; [|done].
  intros He.
  destruct (proj1 (vacuum_body_returns_iff _ _ _ _ _) (mk_is_Some _ _ He))
    as (Hk & n & Hn & H).
  by exists v, n.
Qed.

Lemma estimate_vacuum_returns_only_if_witness :
  ∃ v n,
    examples.book !! "vacuum"%string = Some v
    ∧ has_keys v vacuum_keys = true
    ∧ resolve_ny examples.cluster10 (finance_of examples.book) = Int n
    ∧ ((n <= 0)%Z
       ∨ ¬ 1 + val (resolve_dr examples.cluster10 (finance_of examples.book))
           == 0).
Proof.
  assert (He : ∃ e, estimate_vacuum examples.cluster10 examples.book = Some e)
    by (eexists; vm_compute; reflexivity).
  destruct He as [e He].
  exact (estimate_vacuum_returns_only_if examples.cluster10 examples.book e He).
Defined.

Lemma pressure_body_returns_iff (c : Cluster) (p : gmap string num)
  (ny dr ek : num) :
  is_Some (pressure_body c p ny dr ek)
  ↔ has_keys p pressure_keys_always = true
    ∧ (8000 < est_main_lf c → is_Some (p !! "booster_ls"%string))
    ∧ ∃ n, ny = Int n ∧ ((n <= 0)%Z ∨ ¬ 1 + val dr == 0).
Proof.
  unfold pressure_body, pressure_capex, annual_om, operating_series, has_keys,
    pressure_keys_always.
  cbn [forallb].
  destruct (Qlt_le_dec 8000 (est_main_lf c)) as [Hlong|Hshort].
  - destruct (p !! "booster_ls"%string) as [b|] eqn:Hb.
    + lookup_cases.
      destruct ny as [yrs|fl]; cbn [range1 mbind option_bind].
      * rewrite is_Some_bind_Some, npv_years_is_Some. split.
        -- intros H. split; [done|]. split; [by eauto|]. by exists yrs.
        -- by intros (_ & _ & n' & [= <-] & H).
      * split; [by intros [? ?]|by intros (_ & _ & ? & ? & _)].
    + assert (Hn : ¬ (8000 < est_main_lf c → is_Some (@None num))).
      { intros H. by destruct (H Hlong). }
      split.
      * intros [e He]. exfalso. revert He.
        repeat match goal with
               | |- context [@lookup _ _ (gmap string num) _ ?k ?s] =>
                   destruct (s !! k); simpl; [|done]
               end.
        all: done.
      * intros (_ & H & _). by destruct Hn.
  - lookup_cases.
    destruct ny as [yrs|fl]; cbn [range1 mbind option_bind].
    + rewrite is_Some_bind_Some, npv_years_is_Some. split.
      * intros H. split; [done|]. split; [intros; lra|]. by exists yrs.
      * by intros (_ & _ & n' & [= <-] & H).
    + split; [by intros [? ?]|by intros (_ & _ & ? & ? & _)].
Qed.

Lemma pressure_capex_without_booster (c : Cluster) (p : gmap string num) :
  est_main_lf c <= 8000 →
  pressure_capex c (delete "booster_ls"%string p) = pressure_capex c p.
Proof.
  intros Hm. unfold pressure_capex.
  destruct (Qlt_le_dec 8000 (est_main_lf c)); [lra|].
  by rewrite !lookup_delete_ne by done.
Qed.

(** X5: whenever [estimate_pressure] returns, the cost book has a pressure
    section with the seven keys read for every cluster, the key
    [booster_ls] too if the main is longer than 8000 ft, the effective
    horizon is an int, and the horizon is not positive or the effective
    discount rate is not -1.  For a main of at most 8000 ft the booster
    price is not read: taking [booster_ls] out of the section changes
    nothing.  For a longer main the estimator raises without it. *)
Theorem estimate_pressure_returns_only_if (c : Cluster)
  (costs : gmap string (gmap string num)) (p : gmap string num) :
  costs !! "pressure"%string = Some p →
  let without :=
    <["pressure"%string := delete "booster_ls"%string p]> costs in
  (∀ e, estimate_pressure c costs = Some e →
     has_keys p pressure_keys_always = true
     ∧ (8000 < est_main_lf c → is_Some (p !! "booster_ls"%string))
     ∧ ∃ n, resolve_ny c (finance_of costs) = Int n
         ∧ ((n <= 0)%Z ∨ ¬ 1 + val (resolve_dr c (finance_of costs)) == 0))
  ∧ (est_main_lf c <= 8000 →
     estimate_pressure c without = estimate_pressure c costs)
  ∧ (8000 < est_main_lf c → estimate_pressure c without = None).
Proof.
  intros Hp without.
  assert (Hfin : finance_of without = finance_of costs).
  { unfold finance_of, without. by rewrite lookup_insert_ne. }
  assert (Hw : without !! "pressure"%string
               = Some (delete "booster_ls"%string p)).
  { unfold without. by rewrite lookup_insert_eq. }
  split; [|split].
  - intros e He. unfold estimate_pressure in He. rewrite Hp in He.
    simpl in He.
    by apply (proj1 (pressure_body_returns_iff _ _ _ _ _) (mk_is_Some _ _ He)).
  - intros Hm. unfold estimate_pressure. rewrite Hw, Hp, Hfin. simpl.
    unfold pressure_body, annual_om, operating_series.
    rewrite pressure_capex_without_booster by done.
    by rewrite !lookup_delete_ne by done.
  - intros Hm. unfold estimate_pressure. rewrite Hw, Hfin. simpl.
    apply eq_None_not_Some. rewrite pressure_body_returns_iff.
    intros (_ & Hb & _). specialize (Hb Hm).
    rewrite lookup_delete_eq in Hb. by destruct Hb.
Qed.

Lemma estimate_pressure_returns_only_if_witness :
  estimate_pressure cluster_main_8000 book_no_booster
  = estimate_pressure cluster_main_8000 examples.book
  ∧ estimate_pressure cluster_main_8001 book_no_booster = None.
Proof.
  assert (Hp : examples.book !! "pressure"%string
               = Some examples.pressure_section) by reflexivity.
  destruct (estimate_pressure_returns_only_if cluster_main_8000 examples.book
              examples.pressure_section Hp) as (_ & H0 & _).
  destruct (estimate_pressure_returns_only_if cluster_main_8001 examples.book
              examples.pressure_section Hp) as (_ & _ & H1).
  split; [apply H0|apply H1]; by vm_compute.
Defined.

(** The threshold is strict: without a booster price a main of 8000 ft is
    costed, one of 8001 ft is not. *)
Example booster_price_read_above_8000 :
  is_Some (estimate_pressure cluster_main_8000 book_no_booster)
  ∧ estimate_pressure cluster_main_8001 book_no_booster = None
  ∧ (capex <$> estimate_pressure cluster_main_8000 examples.book)
    = Some (82000000 # 100)
  ∧ (capex <$> estimate_pressure cluster_main_8001 examples.book)
    = Some (88004000 # 100).
Proof. split; [by eexists|]. repeat split; vm_compute; reflexivity. Qed.

End definedness.

(** ** Horizon, lengths and signs *)

Section edges.
Import vendor_compare spec behaviour.

Lemma has_keys_pressure (p : gmap string num) :
  has_keys p pressure_keys = true →
  has_keys p pressure_keys_always = true ∧ is_Some (p !! "booster_ls"%string).
Proof.
  unfold has_keys, pressure_keys, pressure_keys_always. cbn [forallb].
  repeat match goal with
         | |- context [@lookup _ _ (gmap string num) _ ?k ?s] =>
             destruct (s !! k); simpl; [|done]
         end.
  eauto.
Qed.

Lemma round2_0 : round2 0 == 0.
Proof. reflexivity. Qed.

Lemma round2_nonneg (q : Q) : 0 <= q → 0 <= round2 q.
Proof. intros H. rewrite <- round2_0. by apply round2_mono. Qed.

(** X6: when the effective horizon is zero or negative (a negative
    [analysis_years] on the cluster, or such a value in the finance
    section) both estimators still return on a complete cost book, whatever
    the discount rate, -1 included: the operating series is empty, [npv_om]
    is 0 and [npv_total] equals [capex]. *)
Theorem nonpositive_horizon (c : Cluster) (costs : gmap string (gmap string num))
  (n : Z) :
  complete_book costs = true →
  resolve_ny c (finance_of costs) = Int n → (n <= 0)%Z →
  ∃ ev ep,
    estimate_vacuum c costs = Some ev ∧ estimate_pressure c costs = Some ep
    ∧ npv_om ev == 0 ∧ npv_total ev == capex ev
    ∧ npv_om ep == 0 ∧ npv_total ep == capex ep.
Proof.
  intros Hb Hn Hneg.
  destruct (complete_book_facts _ Hb) as (v & p & Hv & Hp & Hkv & Hkp).
  destruct (has_keys_pressure p Hkp) as [Hka Hkb].
  assert (Hev : is_Some (estimate_vacuum c costs)).
  { unfold estimate_vacuum. rewrite Hv. simpl. rewrite Hn.
    apply vacuum_body_returns_iff. split; [done|]. exists n. eauto. }
  assert (Hep : is_Some (estimate_pressure c costs)).
  { unfold estimate_pressure. rewrite Hp. simpl. rewrite Hn.
    apply pressure_body_returns_iff. split; [done|]. split; [done|].
    exists n. eauto. }
  destruct Hev as [ev Hev]. destruct Hep as [ep Hep]. exists ev, ep.
  split; [done|]. split; [done|].
  apply estimate_vacuum_Some in Hev as (v' & _ & Hev).
  apply estimate_pressure_Some in Hep as (p' & _ & Hep).
  rewrite Hn in Hev, Hep.
  apply vacuum_body_Some in Hev as (cv & y1 & sv & xv & _ & _ & Hsv & Hxv & ->).
  apply pressure_body_Some in Hep as (cp & an & sp & xp & _ & _ & Hsp & Hxp & ->).
  injection Hsv as <-. replace (Z.to_nat n) with 0%nat in Hxv by lia.
  injection Hxv as <-.
  unfold operating_series in Hsp.
  destruct (p' !! "pump_replace_years"%string); [|done].
  destruct (p' !! "pump_replace_cost_each"%string); [|done].
  simpl in Hsp. rewrite seqZ_nil in Hsp by done.
  injection Hsp as <-. injection Hxp as <-.
  cbn [npv_om npv_total capex].
  repeat split; try apply round2_0; apply round2_comp; ring.
Qed.

Lemma nonpositive_horizon_witness :
  ∃ ev ep,
    estimate_vacuum cluster_no_years examples.book = Some ev
    ∧ estimate_pressure cluster_no_years examples.book = Some ep
    ∧ npv_om ev == 0 ∧ npv_total ev == capex ev
    ∧ npv_om ep == 0 ∧ npv_total ep == capex ep.
Proof.
  apply (nonpositive_horizon cluster_no_years examples.book (-2));
    [vm_compute; reflexivity|reflexivity|lia].
Defined.

Lemma scale_le (x x' u : Q) : x <= x' → 0 <= u → x * u <= x' * u.
Proof. intros. by apply Qmult_le_compat_r. Qed.

(** X7: with non-negative unit costs and the same number of lots, a
    cluster with a main and laterals at least as long has a [capex] at
    least as high, for both systems; for the pressure system this includes
    the step at 8000 ft of main, where the booster is added. *)
Theorem capex_monotone_in_lengths (c1 c2 : Cluster)
  (costs : gmap string (gmap string num)) :
  nonneg_book costs = true → num_lots c1 = num_lots c2 →
  est_main_lf c1 <= est_main_lf c2 →
  est_laterals_lf c1 <= est_laterals_lf c2 →
  (∀ e1 e2, estimate_vacuum c1 costs = Some e1 →
            estimate_vacuum c2 costs = Some e2 → capex e1 <= capex e2)
  ∧ (∀ e1 e2, estimate_pressure c1 costs = Some e1 →
              estimate_pressure c2 costs = Some e2 → capex e1 <= capex e2).
Proof.
  intros Hb Hn Hm Hl. unfold nonneg_book in Hb.
  apply andb_true_iff in Hb as [Hnv Hnp]. split; intros e1 e2 H1 H2.
  - apply estimate_vacuum_Some in H1 as (v & Hv & H1).
    apply estimate_vacuum_Some in H2 as (v' & Hv' & H2).
    rewrite Hv in Hv', Hnv. injection Hv' as <-. simpl in Hnv.
    apply vacuum_body_Some in H1 as (a1 & ? & ? & ? & Ha1 & _ & _ & _ & ->).
    apply vacuum_body_Some in H2 as (a2 & ? & ? & ? & Ha2 & _ & _ & _ & ->).
    cbn [capex]. apply round2_mono. revert Ha1 Ha2.
    unfold vacuum_capex. rewrite Hn.
    destruct (v !! "main_per_lf_shallow"%string) as [main|] eqn:Hmain; [|done].
    destruct (v !! "lateral_per_lf"%string) as [lat|] eqn:Hlat; [|done].
    destruct (v !! "station_per_400_lots_ls"%string) as [st|]; [|done].
    destruct (v !! "valve_pit_each"%string) as [pit|]; [|done].
    simpl. intros [= <-] [= <-].
    pose proof (scale_le _ _ _ Hm (nonneg_section_lookup _ _ _ Hnv Hmain)).
    pose proof (scale_le _ _ _ Hl (nonneg_section_lookup _ _ _ Hnv Hlat)).
    lra.
  - apply estimate_pressure_Some in H1 as (p & Hp & H1).
    apply estimate_pressure_Some in H2 as (p' & Hp' & H2).
    rewrite Hp in Hp', Hnp. injection Hp' as <-. simpl in Hnp.
    apply pressure_body_Some in H1 as (a1 & ? & ? & ? & Ha1 & _ & _ & _ & ->).
    apply pressure_body_Some in H2 as (a2 & ? & ? & ? & Ha2 & _ & _ & _ & ->).
    cbn [capex]. apply round2_mono. revert Ha1 Ha2.
    unfold pressure_capex. rewrite Hn.
    destruct (p !! "main_per_lf_shallow"%string) as [main|] eqn:Hmain; [|done].
    destruct (p !! "lateral_per_lf"%string) as [lat|] eqn:Hlat; [|done].
    destruct (p !! "grinder_pump_package_each"%string) as [pump|]; [|done].
    simpl.
    pose proof (scale_le _ _ _ Hm (nonneg_section_lookup _ _ _ Hnp Hmain)).
    pose proof (scale_le _ _ _ Hl (nonneg_section_lookup _ _ _ Hnp Hlat)).
    destruct (Qlt_le_dec 8000 (est_main_lf c1));
      destruct (Qlt_le_dec 8000 (est_main_lf c2));
      try (destruct (p !! "booster_ls"%string) as [b|] eqn:Hboost; [|done]);
      simpl; intros [= <-] [= <-];
      try pose proof (nonneg_section_lookup _ _ _ Hnp Hboost);
      lra.
Qed.

Lemma capex_monotone_in_lengths_witness :
  (∀ e1 e2, estimate_vacuum cluster_main_8000 examples.book = Some e1 →
            estimate_vacuum cluster_main_8001 examples.book = Some e2 →
            capex e1 <= capex e2)
  ∧ (∀ e1 e2, estimate_pressure cluster_main_8000 examples.book = Some e1 →
              estimate_pressure cluster_main_8001 examples.book = Some e2 →
              capex e1 <= capex e2).
Proof.
  apply (capex_monotone_in_lengths cluster_main_8000 cluster_main_8001
           examples.book);
    [vm_compute; reflexivity|reflexivity|by vm_compute|by vm_compute].
Defined.

End edges.

(** ** Signs of the result fields *)

Section signs.
Import vendor_compare spec behaviour.

Lemma scaled_nonneg (n : Z) (x : Q) : (0 <= n)%Z → 0 <= x → 0 <= inject_Z n * x.
Proof.
  intros Hn Hx. apply Qmult_le_0_compat; [|done].
  change 0 with (inject_Z 0). by rewrite <- Zle_Qle.
Qed.

Lemma annual_om_nonneg (c : Cluster) (s : gmap string num) (ek : num) (y : Q) :
  nonneg_section s = true → (0 <= num_lots c)%Z → 0 <= val ek →
  annual_om c s ek = Some y → 0 <= y.
Proof.
  intros Hs Hn Hek. unfold annual_om.
  destruct (s !! "annual_om_per_conn"%string) as [om|] eqn:Hom; [|done].
  destruct (s !! "energy_kwh_per_conn_day"%string) as [kwh|] eqn:Hkwh; [|done].
  simpl. intros [= <-].
  pose proof (scaled_nonneg _ _ Hn (nonneg_section_lookup _ _ _ Hs Hom)).
  pose proof (scaled_nonneg _ _ Hn (nonneg_section_lookup _ _ _ Hs Hkwh)) as Hk.
  assert (0 <= inject_Z (num_lots c) * val kwh * 365 * val ek).
  { apply Qmult_le_0_compat; [|done]. lra. }
  lra.
Qed.

Lemma vacuum_capex_nonneg (c : Cluster) (v : gmap string num) (a : Q) :
  nonneg_section v = true → (0 <= num_lots c)%Z →
  0 <= est_main_lf c → 0 <= est_laterals_lf c →
  vacuum_capex c v = Some a → 0 <= a.
Proof.
  intros Hv Hn Hm Hl. unfold vacuum_capex.
  destruct (v !! "main_per_lf_shallow"%string) as [main|] eqn:Hmain; [|done].
  destruct (v !! "lateral_per_lf"%string) as [lat|] eqn:Hlat; [|done].
  destruct (v !! "station_per_400_lots_ls"%string) as [st|] eqn:Hst; [|done].
  destruct (v !! "valve_pit_each"%string) as [pit|] eqn:Hpit; [|done].
  simpl. intros [= <-].
  pose proof (Qmult_le_0_compat _ _ Hm (nonneg_section_lookup _ _ _ Hv Hmain)).
  pose proof (Qmult_le_0_compat _ _ Hl (nonneg_section_lookup _ _ _ Hv Hlat)).
  pose proof (scaled_nonneg (ceil_div (Z.max 1 (num_lots c)) 400) _
                ltac:(rewrite ceil_div_pos by done; apply Z.div_pos; lia)
                (nonneg_section_lookup _ _ _ Hv Hst)).
  pose proof (scaled_nonneg (ceil_div (num_lots c) 2) _
                ltac:(rewrite ceil_div_pos by done; apply Z.div_pos; lia)
                (nonneg_section_lookup _ _ _ Hv Hpit)).
  lra.
Qed.

Lemma pressure_capex_nonneg (c : Cluster) (p : gmap string num) (a : Q) :
  nonneg_section p = true → (0 <= num_lots c)%Z →
  0 <= est_main_lf c → 0 <= est_laterals_lf c →
  pressure_capex c p = Some a → 0 <= a.
Proof.
  intros Hp Hn Hm Hl. unfold pressure_capex.
  destruct (p !! "main_per_lf_shallow"%string) as [main|] eqn:Hmain; [|done].
  destruct (p !! "lateral_per_lf"%string) as [lat|] eqn:Hlat; [|done].
  destruct (p !! "grinder_pump_package_each"%string) as [pump|] eqn:Hpump;
    [|done].
  simpl.
  pose proof (Qmult_le_0_compat _ _ Hm (nonneg_section_lookup _ _ _ Hp Hmain)).
  pose proof (Qmult_le_0_compat _ _ Hl (nonneg_section_lookup _ _ _ Hp Hlat)).
  pose proof (scaled_nonneg _ _ Hn (nonneg_section_lookup _ _ _ Hp Hpump)).
  destruct (Qlt_le_dec 8000 (est_main_lf c));
    try (destruct (p !! "booster_ls"%string) as [b|] eqn:Hboost; [|done]);
    simpl; intros [= <-];
    try pose proof (nonneg_section_lookup _ _ _ Hp Hboost);
    lra.
Qed.

Lemma operating_series_nonneg (c : Cluster) (p : gmap string num) (annual : Q)
  (ny : num) (series : list Q) :
  nonneg_section p = true → (0 <= num_lots c)%Z → 0 <= annual →
  operating_series c p annual ny = Some series → Forall (Qle 0) series.
Proof.
  intros Hp Hn Ha. unfold operating_series.
  destruct (p !! "pump_replace_years"%string) as [pry|]; [|done].
  destruct (p !! "pump_replace_cost_each"%string) as [prc|] eqn:Hprc; [|done].
  simpl. destruct (range1 ny) as [ys|]; [|done]. simpl. intros [= <-].
  pose proof (scaled_nonneg _ _ Hn (nonneg_section_lookup _ _ _ Hp Hprc)).
  apply Forall_fmap, Forall_forall. intros y _. simpl.
  destruct (_ =? _)%Z; lra.
Qed.

Lemma npv_nonneg (series : list Q) (r x : Q) :
  0 < 1 + r → Forall (Qle 0) series → npv series r = Some x → 0 <= x.
Proof.
  intros Hq Hs Hx.
  destruct (npv_present_value series r) as (x' & Hx' & He); [lra|].
  rewrite Hx in Hx'. injection Hx' as <-. rewrite He.
  by apply present_value_nonneg.
Qed.

(** X8: with non-negative unit costs, lengths, number of lots and energy
    rate, and a discount rate above -1, every field of a returned estimate
    is non-negative, and [npv_total] is at least [capex]; this for both
    systems. *)
Theorem estimates_nonnegative (c : Cluster) (costs : gmap string (gmap string num))
  (e : CostEstimate) :
  nonneg_book costs = true → (0 <= num_lots c)%Z →
  0 <= est_main_lf c → 0 <= est_laterals_lf c →
  0 <= val (resolve_ek c (finance_of costs)) →
  0 < 1 + val (resolve_dr c (finance_of costs)) →
  estimate_vacuum c costs = Some e ∨ estimate_pressure c costs = Some e →
  0 <= capex e ∧ 0 <= annual_om_year1 e ∧ 0 <= npv_om e
  ∧ capex e <= npv_total e.
Proof.
  intros Hb Hn Hm Hl Hek Hdr He. unfold nonneg_book in Hb.
  apply andb_true_iff in Hb as [Hnv Hnp].
  assert (Hfields : ∀ cap y x, 0 <= cap → 0 <= y → 0 <= x →
            0 <= round2 cap ∧ 0 <= round2 y ∧ 0 <= round2 x
            ∧ round2 cap <= round2 (cap + x)).
  { intros cap y x Hc Hy Hx. repeat split; try by apply round2_nonneg.
    apply round2_mono. lra. }
  destruct He as [He|He].
  - apply estimate_vacuum_Some in He as (v & Hv & He).
    rewrite Hv in Hnv. simpl in Hnv.
    apply vacuum_body_Some in He as (cap & y1 & s & x & Hc & Hy & Hs & Hx & ->).
    cbn [capex annual_om_year1 npv_om npv_total].
    pose proof (annual_om_nonneg _ _ _ _ Hnv Hn Hek Hy) as Hy0.
    apply Hfields; [by eapply vacuum_capex_nonneg|done|].
    eapply npv_nonneg; [done| |done].
    destruct (resolve_ny _ _); [|done]. injection Hs as <-.
    by apply Forall_replicate.
  - apply estimate_pressure_Some in He as (p & Hp & He).
    rewrite Hp in Hnp. simpl in Hnp.
    apply pressure_body_Some in He as (cap & an & s & x & Hc & Hy & Hs & Hx & ->).
    cbn [capex annual_om_year1 npv_om npv_total].
    pose proof (annual_om_nonneg _ _ _ _ Hnp Hn Hek Hy) as Hy0.
    apply Hfields; [by eapply pressure_capex_nonneg|done|].
    eapply npv_nonneg; [done| |done].
    by eapply operating_series_nonneg.
Qed.

Lemma estimates_nonnegative_witness :
  ∃ e, estimate_pressure examples.cluster10 examples.book = Some e
    ∧ 0 <= capex e ∧ 0 <= annual_om_year1 e ∧ 0 <= npv_om e
    ∧ capex e <= npv_total e.
Proof.
  eexists. split; [vm_compute; reflexivity|].
  apply (estimates_nonnegative examples.cluster10 examples.book);
    [vm_compute; reflexivity|simpl; lia|by vm_compute|by vm_compute
    |by vm_compute|by vm_compute|right; vm_compute; reflexivity].
Defined.

End signs.

(** ** How often the pumps are replaced *)

Section replacement_count.
Import vendor_compare spec behaviour.

Lemma multiples_step (k n : Z) :
  (1 <= k)%Z → (0 <= n)%Z →
  ((n + 1) / k = n / k + (if (n + 1) mod k =? 0 then 1 else 0))%Z.
Proof.
  intros Hk Hn.
  pose proof (Z.div_mod n k ltac:(lia)) as Hd.
  pose proof (Z.mod_pos_bound n k ltac:(lia)) as Hm.
  destruct (decide (n mod k + 1 = k)%Z) as [He|Hne].
  - assert (Hq : (n / k + 1 = (n + 1) / k)%Z)
      by (apply (Z.div_unique _ _ _ 0); lia).
    assert (Hr : (0 = (n + 1) mod k)%Z)
      by (apply (Z.mod_unique _ _ (n / k + 1)); lia).
    rewrite <- Hq, <- Hr. done.
  - assert (Hq : (n / k = (n + 1) / k)%Z)
      by (apply (Z.div_unique _ _ _ (n mod k + 1)); lia).
    assert (Hr : (n mod k + 1 = (n + 1) mod k)%Z)
      by (apply (Z.mod_unique _ _ (n / k)); lia).
    rewrite <- Hq, <- Hr.
    replace (n mod k + 1 =? 0)%Z with false by (symmetry; apply Z.eqb_neq; lia).
    lia.
Qed.

Lemma total_app (l l' : list Q) : total (l ++ l') == total l + total l'.
Proof.
  unfold total. induction l as [|c l IH]; simpl; [ring|]. rewrite IH. ring.
Qed.

Lemma total_years (annual lump : Q) (k : Z) (n : nat) :
  (1 <= k)%Z →
  total ((fun y => annual + (if (y mod k =? 0)%Z then lump else 0))
         <$> seqZ 1 (Z.of_nat n))
  == inject_Z (Z.of_nat n) * annual + inject_Z (Z.of_nat n / k) * lump.
Proof.
  intros Hk. induction n as [|n IH].
  - simpl. rewrite Z.div_0_l by lia. unfold total. simpl. ring.
  - rewrite Nat2Z.inj_succ. unfold Z.succ.
    rewrite seqZ_app by lia. rewrite fmap_app, total_app, IH.
    rewrite multiples_step by lia.
    change (seqZ (1 + Z.of_nat n) 1) with [(1 + Z.of_nat n)%Z].
    cbn [fmap list_fmap]. unfold total at 1. cbn [foldr].
    replace (1 + Z.of_nat n)%Z with (Z.of_nat n + 1)%Z by lia.
    rewrite !inject_Z_plus.
    destruct ((Z.of_nat n + 1) mod k =? 0)%Z; simpl (inject_Z _); ring.
Qed.

Lemma fmap_constant {A B : Type} (f : A → B) (y : B) (l : list A) :
  (∀ x, x ∈ l → f x = y) → f <$> l = replicate (length l) y.
Proof.
  induction l as [|a l IH]; intros H; [done|].
  cbn [fmap list_fmap length replicate]. rewrite (H a) by apply list_elem_of_here.
  f_equal. apply IH. intros x Hx. apply H. by apply list_elem_of_further.
Qed.

(** X9: over a horizon of [n >= 0] years the entries of the pressure
    operating series add up to [n] times the annual cost plus the
    replacement lump once per completed interval, [n div interval] times.
    An interval value of 1 or less (0, a negative number, a fraction)
    puts the lump in every year; an interval longer than the horizon
    leaves it out altogether. *)
Theorem replacement_count (c : Cluster) (p : gmap string num) (pry prc : num)
  (annual : Q) (n : Z) :
  p !! "pump_replace_years"%string = Some pry →
  p !! "pump_replace_cost_each"%string = Some prc →
  (0 <= n)%Z →
  let every := Z.max 1 (py_int pry) in
  let lump := inject_Z (num_lots c) * val prc in
  ∃ series,
    operating_series c p annual (Int n) = Some series
    ∧ total series == inject_Z n * annual + inject_Z (n / every) * lump
    ∧ ((py_int pry <= 1)%Z → series = replicate (Z.to_nat n) (annual + lump))
    ∧ ((n < py_int pry)%Z → series = replicate (Z.to_nat n) (annual + 0)).
Proof.
  intros Hy Hc Hn every lump.
  unfold operating_series. rewrite Hy, Hc. simpl. fold every lump.
  eexists. split; [reflexivity|]. split; [|split].
  - rewrite <- (Z2Nat.id n) by done. apply total_years. lia.
  - intros H1. rewrite <- (length_seqZ 1 n). apply fmap_constant.
    intros t _. replace every with 1%Z by lia. by rewrite Z.mod_1_r.
  - intros Hlong. rewrite <- (length_seqZ 1 n). apply fmap_constant.
    intros t Ht. apply elem_of_seqZ in Ht.
    rewrite Z.mod_small by lia.
    by replace (t =? 0)%Z with false by (symmetry; apply Z.eqb_neq; lia).
Qed.

Lemma replacement_count_witness :
  let annual := 13088 in
  let lump := inject_Z 100 * inject_Z 1500 in
  ∃ series,
    operating_series examples.cluster10 examples.pressure_section annual (Int 10)
    = Some series
    ∧ total series == inject_Z 10 * annual + inject_Z (10 / Z.max 1 5) * lump
    ∧ ((5 <= 1)%Z → series = replicate (Z.to_nat 10) (annual + lump))
    ∧ ((10 < 5)%Z → series = replicate (Z.to_nat 10) (annual + 0)).
Proof.
  apply (replacement_count examples.cluster10 examples.pressure_section
           (Int 5) (Int 1500) 13088 10);
    [reflexivity|reflexivity|lia].
Defined.

End replacement_count.

(** ** More lots never cost less *)

Section lots.
Import vendor_compare spec behaviour.

Lemma npv_mono (l l' : list Q) (r x x' : Q) :
  0 < 1 + r → Forall2 Qle l l' →
  npv l r = Some x → npv l' r = Some x' → x <= x'.
Proof.
  intros Hq Hl Hx Hx'.
  destruct (npv_present_value l r) as (y & Hy & He); [lra|].
  destruct (npv_present_value l' r) as (y' & Hy' & He'); [lra|].
  rewrite Hx in Hy. rewrite Hx' in Hy'. injection Hy as <-. injection Hy' as <-.
  rewrite He, He'. by apply present_value_mono.
Qed.

Lemma Forall2_same_list {A : Type} (f g : A → Q) (l : list A) :
  (∀ a, f a <= g a) → Forall2 Qle (f <$> l) (g <$> l).
Proof. intros H. induction l; constructor; auto. Qed.

Lemma Forall2_replicate_le (n : nat) (y y' : Q) :
  y <= y' → Forall2 Qle (replicate n y) (replicate n y').
Proof. intros H. induction n; constructor; auto. Qed.

Lemma annual_om_mono (c1 c2 : Cluster) (s : gmap string num) (ek : num)
  (y1 y2 : Q) :
  nonneg_section s = true → (num_lots c1 <= num_lots c2)%Z → 0 <= val ek →
  annual_om c1 s ek = Some y1 → annual_om c2 s ek = Some y2 → y1 <= y2.
Proof.
  intros Hs Hn Hek. unfold annual_om.
  destruct (s !! "annual_om_per_conn"%string) as [om|] eqn:Hom; [|done].
  destruct (s !! "energy_kwh_per_conn_day"%string) as [kwh|] eqn:Hkwh; [|done].
  simpl. intros [= <-] [= <-].
  pose proof (nonneg_section_lookup _ _ _ Hs Hkwh) as Hk.
  pose proof (scale_mono _ _ _ Hn (nonneg_section_lookup _ _ _ Hs Hom)).
  assert (Hu : 0 <= val kwh * 365 * val ek).
  { apply Qmult_le_0_compat; [|done]. lra. }
  pose proof (scale_mono _ _ _ Hn Hu). lra.
Qed.

(** X10: with non-negative unit costs, a non-negative energy rate and a
    discount rate above -1, of two clusters that differ in [num_lots] only
    the one with more lots has every amount at least as high: first-year
    operating cost, discounted operating cost and total, for both
    systems. *)
Theorem amounts_monotone_in_lots (c1 c2 : Cluster)
  (costs : gmap string (gmap string num)) :
  nonneg_book costs = true → same_but_lots c1 c2 →
  (num_lots c1 <= num_lots c2)%Z →
  0 <= val (resolve_ek c1 (finance_of costs)) →
  0 < 1 + val (resolve_dr c1 (finance_of costs)) →
  ∀ e1 e2,
    (estimate_vacuum c1 costs = Some e1 ∧ estimate_vacuum c2 costs = Some e2)
    ∨ (estimate_pressure c1 costs = Some e1
       ∧ estimate_pressure c2 costs = Some e2) →
    annual_om_year1 e1 <= annual_om_year1 e2
    ∧ npv_om e1 <= npv_om e2
    ∧ npv_total e1 <= npv_total e2.
Proof.
  intros Hb Hs Hn Hek Hdr e1 e2 He. unfold nonneg_book in Hb.
  apply andb_true_iff in Hb as [Hnv Hnp].
  destruct (same_but_lots_resolve c1 c2 (finance_of costs) Hs) as (Hy & Hd & Hk).
  assert (Hfields : ∀ a1 a2 y1 y2 x1 x2, a1 <= a2 → y1 <= y2 → x1 <= x2 →
            round2 y1 <= round2 y2 ∧ round2 x1 <= round2 x2
            ∧ round2 (a1 + x1) <= round2 (a2 + x2)).
  { intros. repeat split; apply round2_mono; lra. }
  destruct He as [[H1 H2]|[H1 H2]].
  - apply estimate_vacuum_Some in H1 as (v & Hv & H1).
    apply estimate_vacuum_Some in H2 as (v' & Hv' & H2).
    rewrite Hv in Hv', Hnv. injection Hv' as <-. simpl in Hnv.
    rewrite <- Hy, <- Hd, <- Hk in H2.
    apply vacuum_body_Some in H1 as (a1 & y1 & s1 & x1 & Ha1 & Hy1 & Hs1 & Hx1 & ->).
    apply vacuum_body_Some in H2 as (a2 & y2 & s2 & x2 & Ha2 & Hy2 & Hs2 & Hx2 & ->).
    cbn [annual_om_year1 npv_om npv_total].
    pose proof (annual_om_mono _ _ _ _ _ _ Hnv Hn Hek Hy1 Hy2) as Hle.
    apply Hfields; [by eapply vacuum_capex_mono|done|].
    eapply (npv_mono s1 s2); [done| |done..].
    destruct (resolve_ny c1 _); [|done].
    injection Hs1 as <-. injection Hs2 as <-. by apply Forall2_replicate_le.
  - apply estimate_pressure_Some in H1 as (p & Hp & H1).
    apply estimate_pressure_Some in H2 as (p' & Hp' & H2).
    rewrite Hp in Hp', Hnp. injection Hp' as <-. simpl in Hnp.
    rewrite <- Hy, <- Hd, <- Hk in H2.
    apply pressure_body_Some in H1 as (a1 & y1 & s1 & x1 & Ha1 & Hy1 & Hs1 & Hx1 & ->).
    apply pressure_body_Some in H2 as (a2 & y2 & s2 & x2 & Ha2 & Hy2 & Hs2 & Hx2 & ->).
    cbn [annual_om_year1 npv_om npv_total].
    pose proof (annual_om_mono _ _ _ _ _ _ Hnp Hn Hek Hy1 Hy2) as Hle.
    apply Hfields; [by eapply pressure_capex_mono|done|].
    eapply (npv_mono s1 s2); [done| |done..].
    unfold operating_series in Hs1, Hs2.
    destruct (p !! "pump_replace_years"%string) as [pry|]; [|done].
    destruct (p !! "pump_replace_cost_each"%string) as [prc|] eqn:Hprc; [|done].
    simpl in Hs1, Hs2. destruct (range1 _) as [ys|]; [|done].
    injection Hs1 as <-. injection Hs2 as <-.
    pose proof (scale_mono _ _ _ Hn (nonneg_section_lookup _ _ _ Hnp Hprc)).
    apply Forall2_same_list. intros t. simpl. destruct (_ =? _)%Z; lra.
Qed.

Lemma amounts_monotone_in_lots_witness :
  ∃ e1 e2,
    estimate_pressure examples.cluster10 examples.book = Some e1
    ∧ estimate_pressure examples.cluster10_200 examples.book = Some e2
    ∧ annual_om_year1 e1 <= annual_om_year1 e2
    ∧ npv_om e1 <= npv_om e2
    ∧ npv_total e1 <= npv_total e2.
Proof.
  eexists _, _. split; [vm_compute; reflexivity|].
  split; [vm_compute; reflexivity|].
  apply (amounts_monotone_in_lots examples.cluster10 examples.cluster10_200
           examples.book);
    [vm_compute; reflexivity|by repeat split|simpl; lia|by vm_compute
    |by vm_compute|right; split; vm_compute; reflexivity].
Defined.

End lots.

(** ** The delta and the finance section in [compare] *)

Section comparison_more.
Import vendor_compare spec behaviour.

Lemma round_half_even_Z (z : Z) : round_half_even (inject_Z z) = z.
Proof.
  unfold round_half_even. rewrite Qfloor_Z.
  assert (H : Qcompare (inject_Z z - inject_Z z) (1 # 2) = Lt).
  { apply Qlt_alt. assert (He : inject_Z z - inject_Z z == 0) by ring.
    by rewrite He. }
  by rewrite H.
Qed.

(** An amount in whole cents is left alone by [round2]. *)
Lemma round2_cents (q : Q) (z : Z) : q == z # 100 → round2 q == q.
Proof.
  intros Hq. rewrite Hq at 2. unfold round2.
  assert (He : q * 100 == inject_Z z).
  { rewrite Hq. unfold Qeq. simpl. lia. }
  by rewrite (round_half_even_comp _ _ He), round_half_even_Z.
Qed.

Lemma abs_difference_cents (z1 z2 : Z) :
  Qabs ((z1 # 100) - (z2 # 100)) == Z.abs (z1 - z2) # 100.
Proof.
  assert (He : (z1 # 100) - (z2 # 100) == (z1 - z2) # 100).
  { unfold Qeq. simpl. lia. }
  rewrite He. reflexivity.
Qed.

Lemma compare_Some (costs : gmap string (gmap string num)) (c : Cluster)
  (r : Comparison) :
  compare costs c = Some r →
  ∃ z1 z2,
    npv_total (vacuum r) = z1 # 100 ∧ npv_total (pressure r) = z2 # 100
    ∧ preferred r = (if (z1 <? z2)%Z then "Vacuum" else "Pressure")%string
    ∧ npv_delta r = round2 (Qabs ((z1 # 100) - (z2 # 100))).
Proof.
  unfold compare. intros H.
  destruct (estimate_vacuum c costs) as [ev|] eqn:Hv; [|done].
  destruct (estimate_pressure c costs) as [ep|] eqn:Hp; [|done].
  simpl in H. injection H as <-.
  apply estimate_vacuum_Some in Hv as (v & _ & Hv).
  apply estimate_pressure_Some in Hp as (p & _ & Hp).
  apply vacuum_body_Some in Hv as (? & ? & ? & ? & _ & _ & _ & _ & ->).
  apply pressure_body_Some in Hp as (? & ? & ? & ? & _ & _ & _ & _ & ->).
  cbn [vacuum pressure preferred npv_delta npv_total]. unfold round2 at 1 2 3 4.
  eexists _, _. split; [reflexivity|]. split; [reflexivity|].
  split; [|reflexivity].
  match goal with
  | |- context [Qcompare (?a # 100) (?b # 100)] =>
      destruct (Qcompare_spec (a # 100) (b # 100)) as [H|H|H];
      unfold Qeq, Qlt in H; simpl in H;
      destruct (Z.ltb_spec a b); (done || lia)
  end.
Qed.

Lemma npv_delta_cents (z1 z2 : Z) :
  round2 (Qabs ((z1 # 100) - (z2 # 100))) == Z.abs (z1 - z2) # 100.
Proof.
  rewrite <- abs_difference_cents. eapply round2_cents, abs_difference_cents.
Qed.

(** X11: the [npv_delta] of a comparison is never negative; it is zero
    exactly when the two [npv_total] fields are equal, and at least one
    cent when they differ. *)
Theorem npv_delta_zero_iff_tie (costs : gmap string (gmap string num))
  (c : Cluster) (r : Comparison) :
  compare costs c = Some r →
  0 <= npv_delta r
  ∧ (npv_delta r == 0 ↔ npv_total (vacuum r) == npv_total (pressure r))
  ∧ (¬ npv_total (vacuum r) == npv_total (pressure r) →
     1 # 100 <= npv_delta r).
Proof.
  intros H. apply compare_Some in H as (z1 & z2 & -> & -> & _ & ->).
  rewrite npv_delta_cents. unfold Qle, Qeq. simpl. lia.
Qed.

Lemma npv_delta_zero_iff_tie_witness :
  ∃ r, compare examples.book examples.cluster10 = Some r
    ∧ 0 <= npv_delta r
    ∧ (npv_delta r == 0 ↔ npv_total (vacuum r) == npv_total (pressure r))
    ∧ (¬ npv_total (vacuum r) == npv_total (pressure r) →
       1 # 100 <= npv_delta r).
Proof.
  eexists. split; [vm_compute; reflexivity|].
  apply (npv_delta_zero_iff_tie examples.book examples.cluster10).
  vm_compute. reflexivity.
Defined.

Lemma truthy_Int (z : Z) : z ≠ 0%Z → truthy (Int z) = true.
Proof.
  intros Hz. unfold truthy. simpl. destruct (Qeq_bool _ _) eqn:He; [|done].
  apply Qeq_bool_eq in He. unfold Qeq in He. simpl in He. lia.
Qed.

Lemma truthy_Float (q : Q) : ¬ q == 0 → truthy (Float q) = true.
Proof.
  intros Hq. unfold truthy. simpl. destruct (Qeq_bool _ _) eqn:He; [|done].
  by apply Qeq_bool_eq in He.
Qed.

(** X12: when the cluster carries all three finance fields and none of
    them is zero, the finance section is not consulted: two cost books
    with the same vacuum and pressure sections give the same comparison,
    whatever their finance sections hold or whether they have one. *)
Theorem nonzero_cluster_fields_override_finance
  (costs costs' : gmap string (gmap string num)) (c : Cluster) (y : Z) (d k : Q) :
  costs !! "vacuum"%string = costs' !! "vacuum"%string →
  costs !! "pressure"%string = costs' !! "pressure"%string →
  analysis_years c = Some y → y ≠ 0%Z →
  discount_rate c = Some d → ¬ d == 0 →
  energy_rate_per_kwh c = Some k → ¬ k == 0 →
  resolve_ny c (finance_of costs) = Int y
  ∧ resolve_dr c (finance_of costs) = Float d
  ∧ resolve_ek c (finance_of costs) = Float k
  ∧ compare costs c = compare costs' c.
Proof.
  intros Hv Hp Hy Hy0 Hd Hd0 Hk Hk0.
  unfold compare, estimate_vacuum, estimate_pressure,
    resolve_ny, resolve_dr, resolve_ek.
  rewrite Hv, Hp, Hy, Hd, Hk. cbn [fmap option_fmap option_map].
  rewrite !py_or_truthy
    by first [by apply truthy_Int|by apply truthy_Float].
  done.
Qed.

Lemma nonzero_cluster_fields_override_finance_witness :
  let c := mkCluster 100 5000 2000 (Some 10%Z) (Some (5 # 100)) (Some (1 # 10)) in
  resolve_ny c (finance_of examples.book) = Int 10
  ∧ resolve_dr c (finance_of examples.book) = Float (5 # 100)
  ∧ resolve_ek c (finance_of examples.book) = Float (1 # 10)
  ∧ compare examples.book c = compare examples.book_rate_3 c.
Proof.
  apply (nonzero_cluster_fields_override_finance examples.book
           examples.book_rate_3
           (mkCluster 100 5000 2000 (Some 10%Z) (Some (5 # 100)) (Some (1 # 10)))
           10 (5 # 100) (1 # 10));
    try reflexivity; try (by vm_compute);
    symmetry; apply lookup_insert_ne; discriminate.
Defined.

End comparison_more.

(** ** Status, file name and escaping in the route *)

Section route_more.
Import vendor_compare spec behaviour.
Import vendors (field, Omitted, Null, Given, optional, validate_cluster,
                validate_req, model_dump, vendors_compare, post_vendors_compare,
                status_code, response, ReturnResult, ReturnResponse, ReturnError,
                outcome, Rejected, Raised, Returned, esc, attachment,
                _to_html, _to_csv_bytes, latin1).

Lemma validate_cluster_is_Some (cb : vendors.ClusterBody) :
  is_Some (validate_cluster cb)
  ↔ (0 < vendors.body_num_lots cb)%Z
    ∧ 0 <= vendors.body_est_main_lf cb
    ∧ 0 <= vendors.body_est_laterals_lf cb.
Proof.
  unfold validate_cluster.
  destruct (Z.ltb_spec 0 (vendors.body_num_lots cb)) as [Hn|Hn]; simpl.
  - destruct (Qle_bool 0 (vendors.body_est_main_lf cb)) eqn:Hm; simpl.
    + destruct (Qle_bool 0 (vendors.body_est_laterals_lf cb)) eqn:Hl; simpl.
      * apply Qle_bool_iff in Hm, Hl. split; [done|by eauto].
      * split; [by intros [? ?]|]. intros (_ & _ & H).
        apply Qle_bool_iff in H. congruence.
    + split; [by intros [? ?]|]. intros (_ & H & _).
      apply Qle_bool_iff in H. congruence.
  - split; [by intros [? ?]|]. intros (? & _). lia.
Qed.

Lemma latin1_app (s1 s2 : string) :
  latin1 (s1 +:+ s2) = latin1 s1 && latin1 s2.
Proof.
  unfold latin1. induction s1 as [|a s1 IH]; simpl; [done|].
  by rewrite IH, andb_assoc.
Qed.

(** A response with an attachment is built when the name is latin-1. *)
Lemma Response_attachment (content media_type name : string) :
  vendors.Response content media_type (attachment name)
  = if latin1 name then Some (ReturnResponse content media_type (attachment name))
    else None.
Proof.
  unfold vendors.Response, attachment. cbn [forallb fst snd].
  rewrite !latin1_app.
  change (latin1 "Content-Disposition") with true.
  change (latin1 "attachment; filename=") with true.
  change (latin1 dquote) with true.
  by destruct (latin1 name).
Qed.

Lemma vendors_compare_raises (costs : gmap string (gmap string num))
  (req : vendors.CompareReq) :
  compare costs (model_dump (vendors.cluster req)) = None →
  vendors_compare costs req = None.
Proof. unfold vendors_compare. by intros ->. Qed.

Lemma vendors_compare_returns (costs : gmap string (gmap string num))
  (req : vendors.CompareReq) :
  is_Some (vendors_compare costs req) →
  is_Some (compare costs (model_dump (vendors.cluster req))).
Proof.
  unfold vendors_compare. destruct (compare _ _); [by eauto|by intros [? ?]].
Qed.

(** X13: the route answers 422 exactly when [num_lots] is not positive or
    a length is negative, in which case the handler is not run.  A valid
    body whose comparison raises is answered with 500 whatever [fmt] and
    [filename] are, so that a 200 is only given when the comparison
    returned; and so is a valid body that asks for html or csv with a
    file name that is not latin-1, the response header being refused. *)
Theorem route_status (costs : gmap string (gmap string num))
  (body : vendors.CompareBody) :
  let cb := vendors.body_cluster body in
  let in_bounds := (0 < vendors.body_num_lots cb)%Z
                   ∧ 0 <= vendors.body_est_main_lf cb
                   ∧ 0 <= vendors.body_est_laterals_lf cb in
  let compared :=
    validate_cluster cb ≫= fun m => compare costs (model_dump m) in
  let key := lower (str_or (optional "json"%string (vendors.body_fmt body))
                           "json") in
  (status_code (post_vendors_compare costs body) = 422%Z ↔ ¬ in_bounds)
  ∧ (post_vendors_compare costs body = Rejected ↔ ¬ in_bounds)
  ∧ (in_bounds → compared = None →
     status_code (post_vendors_compare costs body) = 500%Z)
  ∧ (status_code (post_vendors_compare costs body) = 200%Z →
     in_bounds ∧ is_Some compared)
  ∧ (∀ a name, in_bounds → key = "html"%string ∨ key = "csv"%string →
       vendors.body_filename body = Given (String a name) →
       latin1 (String a name) = false →
       status_code (post_vendors_compare costs body) = 500%Z).
Proof.
  intros cb in_bounds compared key.
  pose proof (validate_cluster_is_Some cb) as Hv. fold in_bounds in Hv.
  unfold post_vendors_compare, validate_req, compared. fold cb.
  destruct (validate_cluster cb) as [c|]; simpl.
  - assert (Hok : in_bounds) by (apply Hv; eauto).
    set (req := vendors.mkCompareReq c _ _).
    pose proof (vendors_compare_raises costs req) as Hr.
    pose proof (vendors_compare_returns costs req) as Hs.
    simpl in Hr, Hs.
    split; [|split; [|split; [|split]]].
    + destruct (vendors_compare costs req); simpl; split; (done || by intros []).
    + destruct (vendors_compare costs req); simpl; split; (done || by intros []).
    + intros _ Hc. by rewrite (Hr Hc).
    + destruct (vendors_compare costs req) as [r|]; simpl; [|done].
      intros _. split; [done|]. apply Hs. by eexists.
    + intros a name _ Hk Hf Hl. unfold vendors_compare, req. simpl.
      fold key. rewrite Hf. simpl.
      destruct (compare costs (model_dump c)); simpl; [|done].
      destruct Hk as [Hk|Hk]; rewrite Hk; repeat case_decide; try done;
        by rewrite Response_attachment, Hl.
  - assert (Hno : ¬ in_bounds) by (intros H; apply Hv in H; by destruct H).
    repeat split; try done; by intros.
Qed.

(** X14: when the comparison has returned, the file name of a request is
    used for the html and csv formats only, where it names the attachment
    of the response; an empty file name, like an absent one, gives the
    default name; a name that is not latin-1 makes the handler raise; for
    every other format two requests that differ in the file name get the
    same answer. *)
Theorem filename_names_attachment (costs : gmap string (gmap string num))
  (c : vendors.Cluster) (f : option string) (res : Comparison) :
  compare costs (model_dump c) = Some res →
  let ask fn := vendors_compare costs (vendors.mkCompareReq c f fn) in
  let key := lower (str_or f "json") in
  ask (Some EmptyString) = ask None
  ∧ (key = "html"%string →
     ask None
     = Some (ReturnResponse (_to_html res) "text/html"
               (attachment "vendor_compare.html"))
     ∧ ∀ a fn, ask (Some (String a fn))
        = if latin1 (String a fn)
          then Some (ReturnResponse (_to_html res) "text/html"
                       (attachment (String a fn)))
          else None)
  ∧ (key = "csv"%string →
     ask None
     = Some (ReturnResponse (_to_csv_bytes res) "text/csv"
               (attachment "vendor_compare.csv"))
     ∧ ∀ a fn, ask (Some (String a fn))
        = if latin1 (String a fn)
          then Some (ReturnResponse (_to_csv_bytes res) "text/csv"
                       (attachment (String a fn)))
          else None)
  ∧ (key ≠ "html"%string → key ≠ "csv"%string →
     ∀ fn1 fn2, ask fn1 = ask fn2).
Proof.
  intros Hres ask key. unfold ask, vendors_compare.
  cbn [vendors.cluster vendors.fmt vendors.filename]. rewrite Hres.
  cbn [mbind option_bind]. fold key. split; [done|]. split; [|split].
  - intros Hk. rewrite Hk. repeat case_decide; try done.
    split; [by rewrite Response_attachment|].
    intros a fn. cbn [str_or]. apply Response_attachment.
  - intros Hk. rewrite Hk. repeat case_decide; try done.
    split; [by rewrite Response_attachment|].
    intros a fn. cbn [str_or]. apply Response_attachment.
  - intros Hh Hc fn1 fn2. by repeat case_decide.
Qed.

Lemma filename_names_attachment_witness :
  let c := vendors.mkCluster 100 5000 2000 (Some 10%Z) None None in
  let ask fn := vendors_compare examples.book
                  (vendors.mkCompareReq c (Some "HTML"%string) fn) in
  ∃ res,
    ask (Some EmptyString) = ask None
    ∧ ask None
      = Some (ReturnResponse (_to_html res) "text/html"
                (attachment "vendor_compare.html"))
    ∧ ∀ a fn, ask (Some (String a fn))
       = if latin1 (String a fn)
         then Some (ReturnResponse (_to_html res) "text/html"
                      (attachment (String a fn)))
         else None.
Proof.
  assert (Hres : ∃ res, compare examples.book examples.cluster10 = Some res)
    by (eexists; vm_compute; reflexivity).
  destruct Hres as [res Hres]. exists res.
  destruct (filename_names_attachment examples.book
              (vendors.mkCluster 100 5000 2000 (Some 10%Z) None None)
              (Some "HTML"%string) res Hres) as (H1 & H2 & _).
  split; [exact H1|]. exact (H2 eq_refl).
Defined.

(** A file name in CJK characters: rendered as markdown, refused as a csv
    attachment. *)
Example filename_beyond_latin1 :
  let name := String (ascii_of_nat 228)
                (String (ascii_of_nat 184)
                   (String (ascii_of_nat 173) ".csv")) in
  let body f :=
    vendors.mkCompareBody examples.body_cluster10 (Given f) (Given name) in
  latin1 name = false
  ∧ status_code (post_vendors_compare examples.book (body "markdown"%string))
    = 200%Z
  ∧ post_vendors_compare examples.book (body "csv"%string) = Raised.
Proof. repeat split; vm_compute; reflexivity. Qed.

Lemma occurs_app (n : nat) (s1 s2 : string) :
  occurs n (s1 +:+ s2) = occurs n s1 || occurs n s2.
Proof.
  unfold occurs. induction s1 as [|a s1 IH]; simpl; [done|].
  by rewrite IH, orb_assoc.
Qed.

(** X15: the text that [esc] (the [html.escape] of the HTML rendering)
    returns contains none of the characters <, >, the double quote and
    the single quote, and a text with none of these and no ampersand is
    returned as it is. *)
Theorem esc_leaves_no_markup (s : string) :
  occurs 60 (esc s) = false ∧ occurs 62 (esc s) = false
  ∧ occurs 34 (esc s) = false ∧ occurs 39 (esc s) = false
  ∧ (occurs 38 s = false → occurs 60 s = false → occurs 62 s = false →
     occurs 34 s = false → occurs 39 s = false → esc s = s).
Proof.
  induction s as [|a s (I1 & I2 & I3 & I4 & I5)]; [done|].
  cbn [esc]. rewrite !occurs_app, I1, I2, I3, I4.
  destruct (Nat.eqb_spec (nat_of_ascii a) 38) as [E1|N1];
    [repeat split; try done; unfold occurs; simpl; by rewrite E1|].
  destruct (Nat.eqb_spec (nat_of_ascii a) 60) as [E2|N2];
    [repeat split; try done; unfold occurs; simpl; by rewrite E2|].
  destruct (Nat.eqb_spec (nat_of_ascii a) 62) as [E3|N3];
    [repeat split; try done; unfold occurs; simpl; by rewrite E3, ?orb_true_r|].
  destruct (Nat.eqb_spec (nat_of_ascii a) 34) as [E4|N4];
    [repeat split; try done; unfold occurs; simpl; by rewrite E4, ?orb_true_r|].
  destruct (Nat.eqb_spec (nat_of_ascii a) 39) as [E5|N5];
    [repeat split; try done; unfold occurs; simpl; by rewrite E5, ?orb_true_r|].
  apply Nat.eqb_neq in N2, N3, N4, N5.
  unfold occurs at 1 2 3 4. cbn [String.list_ascii_of_string existsb].
  rewrite N2, N3, N4, N5. repeat split; try done.
  unfold occurs. cbn [String.list_ascii_of_string existsb].
  intros H1 H2 H3 H4 H5.
  apply orb_false_iff in H1 as [_ H1]. apply orb_false_iff in H2 as [_ H2].
  apply orb_false_iff in H3 as [_ H3]. apply orb_false_iff in H4 as [_ H4].
  apply orb_false_iff in H5 as [_ H5].
  simpl. f_equal. by apply I5.
Qed.

End route_more.

(** ** Discounting lowers the value *)

Section rates.
Import vendor_compare spec behaviour.

Lemma power_mono (a b : Q) (k : nat) :
  0 < a → a <= b → a ^ Z.of_nat k <= b ^ Z.of_nat k.
Proof.
  intros Ha Hab. induction k as [|k IH]; [simpl; lra|].
  rewrite Nat2Z.inj_succ. unfold Z.succ. rewrite !Qpower_succ by lra.
  pose proof (Qpower_0_lt a (Z.of_nat k) Ha).
  assert (H1 : a ^ Z.of_nat k * a <= b ^ Z.of_nat k * a)
    by (apply Qmult_le_compat_r; lra).
  assert (H2 : b ^ Z.of_nat k * a <= b ^ Z.of_nat k * b)
    by (apply Qmult_le_l; lra).
  lra.
Qed.

Lemma discounted_antitone (c r r' : Q) (t : Z) :
  (0 <= t)%Z → 0 <= c → 0 < 1 + r → r <= r' →
  c / (1 + r') ^ t <= c / (1 + r) ^ t.
Proof.
  intros Ht Hc Hq Hr. rewrite <- (Z2Nat.id t) by done.
  pose proof (power_mono (1 + r) (1 + r') (Z.to_nat t) Hq ltac:(lra)) as Hp.
  pose proof (Qpower_0_lt (1 + r) (Z.of_nat (Z.to_nat t)) Hq) as H0.
  set (d := (1 + r) ^ Z.of_nat (Z.to_nat t)) in *.
  set (d' := (1 + r') ^ Z.of_nat (Z.to_nat t)) in *.
  apply Qle_shift_div_l; [lra|].
  assert (He : c / d' * d == c * (d / d')) by (field; lra).
  rewrite He.
  assert (Hd : d / d' <= 1) by (apply Qle_shift_div_r; lra).
  assert (H1 : c * (d / d') <= c * 1).
  { destruct (Qeq_dec c 0) as [Hz|Hz]; [rewrite Hz; lra|].
    apply Qmult_le_l; [|done]. destruct (Qlt_le_dec 0 c) as [|Hle]; [done|].
    exfalso. apply Hz. lra. }
  lra.
Qed.

Lemma present_value_antitone (r r' : Q) (t : Z) (l : list Q) :
  (0 <= t)%Z → 0 < 1 + r → r <= r' → Forall (Qle 0) l →
  present_value r' t l <= present_value r t l.
Proof.
  intros Ht Hq Hr Hl. revert t Ht.
  induction Hl as [|c l Hc Hl IH]; intros t Ht; simpl; [lra|].
  pose proof (discounted_antitone c r r' t Ht Hc Hq Hr).
  specialize (IH (t + 1)%Z ltac:(lia)). lra.
Qed.

(** X16: for a series of non-negative costs and two discount rates above
    -1, the higher rate gives the lower or equal [npv]; in particular at a
    rate of zero or more [npv] is at most the plain sum of the series. *)
Theorem npv_antitone_in_rate (series : list Q) (r r' : Q) :
  Forall (Qle 0) series → 0 < 1 + r → r <= r' →
  ∃ x x',
    npv series r = Some x ∧ npv series r' = Some x'
    ∧ 0 <= x' ∧ x' <= x
    ∧ (0 <= r → x <= total series).
Proof.
  intros Hs Hq Hr.
  destruct (npv_present_value series r) as (x & Hx & He); [lra|].
  destruct (npv_present_value series r') as (x' & Hx' & He'); [lra|].
  exists x, x'. split; [done|]. split; [done|]. rewrite He, He'.
  split; [apply present_value_nonneg; [lra|done]|].
  split; [by apply present_value_antitone|].
  intros H0. rewrite <- (present_value_rate_0 1).
  apply present_value_antitone; [done|lra|done..].
Qed.

Lemma npv_antitone_in_rate_witness :
  ∃ x x',
    npv [100; 100; 100] (3 # 100) = Some x
    ∧ npv [100; 100; 100] (6 # 100) = Some x'
    ∧ 0 <= x' ∧ x' <= x
    ∧ (0 <= 3 # 100 → x <= total [100; 100; 100]).
Proof.
  apply (npv_antitone_in_rate [100; 100; 100] (3 # 100) (6 # 100));
    [repeat constructor; by vm_compute|by vm_compute|by vm_compute].
Defined.

End rates.
